(** * A file-backed to-do service: the handlers of [index.js] and of its
    unauthenticated predecessor, embedded and verified.

    The two Express programs keep their collections in [todos.json] and
    [users.json].  Every handler reads a whole file, changes the array in
    memory and writes the whole file back.  The embedding follows the
    JavaScript text statement by statement in a small state-and-exception
    monad over the two files. *)

From Stdlib Require Import String Ascii List ZArith Bool Lia.
From Stdlib Require Import DecimalString DecimalN DecimalPos.
Import ListNotations.
Open Scope string_scope.

(** ** JavaScript values *)

Scheme All for list.
Scheme All for prod.

(** What [JSON.parse] can return.  Numbers are kept to the integers: no
    handler computes with them, they are only tested for truthiness and
    compared. *)
Inductive json : Type :=
| JNull
| JBool (b : bool)
| JNum (n : Z)
| JStr (s : string)
| JArr (elems : list json)
| JObj (fields : list (string * json)).

(** A JavaScript value in a handler: [None] is [undefined]. *)
Definition jsval := option json.

Definition undefined : jsval := None.

(** [!v] is [negb (truthy v)]. *)
Definition truthy (v : jsval) : bool :=
  match v with
  | None => false
  | Some JNull => false
  | Some (JBool b) => b
  | Some (JNum n) => negb (n =? 0)%Z
  | Some (JStr s) => negb (s =? "")
  | Some (JArr _) => true
  | Some (JObj _) => true
  end.

(** [a === b].  The operands of every [===] and [!==] of the two programs
    come from different places (a parsed file on one side, the request on the
    other), so two arrays or two objects are never the same reference. *)
Definition strict_eq (a b : jsval) : bool :=
  match a, b with
  | None, None => true
  | Some JNull, Some JNull => true
  | Some (JBool x), Some (JBool y) => Bool.eqb x y
  | Some (JNum x), Some (JNum y) => (x =? y)%Z
  | Some (JStr x), Some (JStr y) => (x =? y)
  | _, _ => false
  end.

Fixpoint assoc (k : string) (fields : list (string * json)) : jsval :=
  match fields with
  | [] => None
  | (k', v) :: rest => if k' =? k then Some v else assoc k rest
  end.

(** ** Exceptions and the two files *)

Inductive exn : Type :=
| SyntaxError         (* JSON.parse on malformed text *)
| TypeError           (* property of null or undefined, call of a non-function *)
| ENOENT              (* readFileSync on a missing file *)
| JsonWebTokenError.  (* jwt.verify on a forged or expired token *)

Inductive outcome (A : Type) : Type :=
| Normal (a : A)
| Throw (e : exn).
Arguments Normal {A} a.
Arguments Throw {A} e.

Inductive path : Type := TODOS_FILE | USERS_FILE.

(** The directory of the server: each file is absent or holds a text. *)
Record Files : Type := mkFiles {
  todos_json : option string;
  users_json : option string
}.

Definition file (fs : Files) (p : path) : option string :=
  match p with
  | TODOS_FILE => todos_json fs
  | USERS_FILE => users_json fs
  end.

Definition set_file (fs : Files) (p : path) (data : string) : Files :=
  match p with
  | TODOS_FILE => mkFiles (Some data) (users_json fs)
  | USERS_FILE => mkFiles (todos_json fs) (Some data)
  end.

(** A computation that may write the files and may throw.  A write that
    happened before a throw stays. *)
Definition M (A : Type) : Type := Files -> outcome A * Files.

Definition ret {A} (a : A) : M A := fun fs => (Normal a, fs).

Definition throw {A} (e : exn) : M A := fun fs => (Throw e, fs).

Definition bind {A B} (m : M A) (k : A -> M B) : M B :=
  fun fs =>
    match m fs with
    | (Normal a, fs') => k a fs'
    | (Throw e, fs') => (Throw e, fs')
    end.

(** [try { body } catch (error) { handler }] *)
Definition try_catch {A} (body : M A) (handler : exn -> M A) : M A :=
  fun fs =>
    match body fs with
    | (Normal a, fs') => (Normal a, fs')
    | (Throw e, fs') => handler e fs'
    end.

Definition lift {A} (o : outcome A) : M A := fun fs => (o, fs).

Declare Scope js_scope.
Delimit Scope js_scope with js.
Notation "x <- m ;; k" := (bind m (fun x => k))
  (at level 61, m at next level, right associativity) : js_scope.
Notation "m ;; k" := (bind m (fun _ => k))
  (at level 61, right associativity) : js_scope.
Open Scope js_scope.

Definition existsSync (p : path) : M bool :=
  fun fs => (Normal (match file fs p with Some _ => true | None => false end), fs).

Definition readFileSync (p : path) : M string :=
  fun fs =>
    match file fs p with
    | Some data => (Normal data, fs)
    | None => (Throw ENOENT, fs)
    end.

Definition writeFileSync (p : path) (data : string) : M unit :=
  fun fs => (Normal tt, set_file fs p data).

(** ** Strings *)

(** The white space and line terminators [String.prototype.trim] strips,
    among the characters a [string] here can hold. *)
Definition is_space (c : ascii) : bool :=
  match nat_of_ascii c with
  | 9 | 10 | 11 | 12 | 13 | 32 | 160 => true
  | _ => false
  end.

Fixpoint trimStart (s : string) : string :=
  match s with
  | EmptyString => EmptyString
  | String c rest => if is_space c then trimStart rest else s
  end.

Fixpoint rev_string (acc s : string) : string :=
  match s with
  | EmptyString => acc
  | String c rest => rev_string (String c acc) rest
  end.

Definition trim (s : string) : string :=
  rev_string "" (trimStart (rev_string "" (trimStart s))).

Definition startsWith (s pre : string) : bool := prefix pre s.

(** [s.slice(n)] for [0 <= n]. *)
Definition slice (s : string) (n : nat) : string :=
  substring n (String.length s - n) s.

(** [a || b] on strings that may be undefined. *)
Definition or_else (a : option string) (b : string) : string :=
  match a with
  | Some s => if s =? "" then b else s
  | None => b
  end.

(** ** Property access and array methods *)

(** [v.k] for the property names the handlers use ([id], [text],
    [username], [password]): reading a property of [null] or [undefined]
    throws, an object gives its own field, and numbers, booleans, strings
    and arrays have no property of these names. *)
Definition get_prop (v : jsval) (k : string) : outcome jsval :=
  match v with
  | None => Throw TypeError
  | Some JNull => Throw TypeError
  | Some (JObj fields) => Normal (assoc k fields)
  | Some _ => Normal undefined
  end.

(** An object literal [{ k1: v1, ... }] as it reaches a file or a response:
    serialization leaves out the fields that are [undefined]. *)
Fixpoint literal_fields (fields : list (string * jsval))
  : list (string * json) :=
  match fields with
  | [] => []
  | (k, Some j) :: rest => (k, j) :: literal_fields rest
  | (_, None) :: rest => literal_fields rest
  end.

Definition object_literal (fields : list (string * jsval)) : json :=
  JObj (literal_fields fields).

(** [l.filter(cb)]: elements are visited in order, a throwing callback
    aborts the whole call. *)
Fixpoint array_filter (cb : json -> outcome bool) (l : list json)
  : outcome (list json) :=
  match l with
  | [] => Normal []
  | x :: rest =>
      match cb x with
      | Throw e => Throw e
      | Normal keep =>
          match array_filter cb rest with
          | Throw e => Throw e
          | Normal rest' => Normal (if keep then x :: rest' else rest')
          end
      end
  end.

(** [l.find(cb)]: stops at the first element the callback accepts. *)
Fixpoint array_find (cb : json -> outcome bool) (l : list json)
  : outcome jsval :=
  match l with
  | [] => Normal undefined
  | x :: rest =>
      match cb x with
      | Throw e => Throw e
      | Normal true => Normal (Some x)
      | Normal false => array_find cb rest
      end
  end.

(** [todos.push(x)], giving the array after the call. *)
Definition array_push (todos : json) (x : json) : outcome json :=
  match todos with
  | JArr l => Normal (JArr (l ++ [x]))
  | _ => Throw TypeError
  end.

(** ** Requests and responses *)

Record Request : Type := mkRequest {
  authorization : option string;  (* req.headers.authorization *)
  body : json;                    (* req.body, after express.json() *)
  params_id : string              (* req.params.id *)
}.

Record Response : Type := mkResponse {
  status : nat;
  payload : option json   (* [None]: an empty body, as after [send()] *)
}.

(** [res.status(st).json(b)] *)
Definition respond (st : nat) (b : json) : M Response :=
  ret (mkResponse st (Some b)).

(** [res.status(st).send()] *)
Definition respond_empty (st : nat) : M Response :=
  ret (mkResponse st None).

Definition message (m : string) : json := JObj [("message", JStr m)].

(** ** What the programs take from their platform *)

(** The built-in [JSON] object, the [jsonwebtoken] package and the process
    environment.  [JSON_stringify v] stands for [JSON.stringify(v, null, 2)];
    [jwt_verify token secret] throws when the signature does not match
    or the token has expired; [jwt_sign payload secret] signs with the
    one-hour expiry both call sites ask for. *)
Class Platform : Type := {
  JSON_parse : string -> outcome json;
  JSON_stringify : json -> string;
  jwt_verify : string -> string -> outcome json;
  jwt_sign : list (string * jsval) -> string -> string;
  env_JWT_SECRET : option string
}.

(** What the proofs need of [JSON]: a written value is read back as it
    was, the text the readers write on a reset is the empty array, and a
    blank text is not JSON. *)
Class JsonLaws (P : Platform) : Prop := {
  parse_stringify : forall v, JSON_parse (JSON_stringify v) = Normal v;
  parse_empty_array : JSON_parse "[]" = Normal (JArr []);
  parse_nonblank : forall data v, JSON_parse data = Normal v -> trim data <> ""
}.

(** ** The program without accounts ([src/unnamed/part_000]) *)

Module Part000.
Section Handlers.
Context {P : Platform}.

Definition readTodos : M json :=
  try_catch
    (found <- existsSync TODOS_FILE ;;
     if negb found then
       writeFileSync TODOS_FILE "[]" ;;
       ret (JArr [])
     else
       data <- readFileSync TODOS_FILE ;;
       if trim data =? "" then ret (JArr [])
       else lift (JSON_parse data))
    (fun error =>
       writeFileSync TODOS_FILE "[]" ;;
       ret (JArr [])).

Definition writeTodos (todos : json) : M unit :=
  writeFileSync TODOS_FILE (JSON_stringify todos).

(** [app.get('/todos', ...)] *)
Definition get_todos (req : Request) : M Response :=
  todos <- readTodos ;;
  respond 200 todos.

(** [app.post('/todos', ...)]; [rnd] is what
    [Math.random().toString(36).substring(2, 9)] evaluates to. *)
Definition post_todos (rnd : string) (req : Request) : M Response :=
  text <- lift (get_prop (Some (body req)) "text") ;;
  if negb (truthy text) then
    respond 400 (message "Todo text is required")
  else
    todos <- readTodos ;;
    let newTodo :=
      object_literal
        [("id", Some (JStr rnd)); ("text", text);
         ("completed", Some (JBool false))] in
    todos <- lift (array_push todos newTodo) ;;
    writeTodos todos ;;
    respond 201 newTodo.

(** The callback of the filter: [todo => todo.id !== id]. *)
Definition id_differs (id : string) (todo : json) : outcome bool :=
  match get_prop (Some todo) "id" with
  | Normal v => Normal (negb (strict_eq v (Some (JStr id))))
  | Throw e => Throw e
  end.

(** [app.delete('/todos/:id', ...)].  [todos.length] and [todos.filter]
    exist together only on an array. *)
Definition delete_todo (req : Request) : M Response :=
  let id := params_id req in
  todos <- readTodos ;;
  match todos with
  | JArr l =>
      let initialLength := List.length l in
      todos <- lift (array_filter (id_differs id) l) ;;
      if (List.length todos =? initialLength)%nat then
        respond 404 (message "Todo not found")
      else
        writeTodos (JArr todos) ;;
        respond_empty 204
  | _ => throw TypeError
  end.

End Handlers.
End Part000.

(** ** The program with accounts ([src/index.js]) *)

Module Index.
Section Handlers.
Context {P : Platform}.

(** [process.env.JWT_SECRET || "dev-secret"] *)
Definition JWT_SECRET : string := or_else env_JWT_SECRET "dev-secret".

Definition readTodos : M json :=
  try_catch
    (found <- existsSync TODOS_FILE ;;
     if negb found then
       writeFileSync TODOS_FILE "[]" ;;
       ret (JArr [])
     else
       data <- readFileSync TODOS_FILE ;;
       if trim data =? "" then ret (JArr [])
       else lift (JSON_parse data))
    (fun error =>
       writeFileSync TODOS_FILE "[]" ;;
       ret (JArr [])).

Definition writeTodos (todos : json) : M unit :=
  writeFileSync TODOS_FILE (JSON_stringify todos).

Definition readUsers : M json :=
  try_catch
    (found <- existsSync USERS_FILE ;;
     if negb found then
       writeFileSync USERS_FILE "[]" ;;
       ret (JArr [])
     else
       data <- readFileSync USERS_FILE ;;
       if trim data =? "" then ret (JArr [])
       else lift (JSON_parse data))
    (fun error =>
       writeFileSync USERS_FILE "[]" ;;
       ret (JArr [])).

Definition writeUsers (users : json) : M unit :=
  writeFileSync USERS_FILE (JSON_stringify users).

(** The middleware.  [next] is the rest of the route.  Express runs a
    route handler under its own exception handler, so what [next] throws
    does not come back to the [catch] here: only [jwt.verify] is caught. *)
Definition auth (req : Request) (next : M Response) : M Response :=
  let authHeader := or_else (authorization req) "" in
  let token :=
    if startsWith authHeader "Bearer " then Some (slice authHeader 7)
    else None in
  match token with
  | None => respond 401 (message "Missing Authorization header")
  | Some "" => respond 401 (message "Missing Authorization header")
  | Some token =>
      match jwt_verify token JWT_SECRET with
      | Normal payload => next
      | Throw err => respond 401 (message "Invalid or expired token")
      end
  end.

(** The callback of signup's [find]: [u => u.username === username]. *)
Definition same_username (username : jsval) (u : json) : outcome bool :=
  match get_prop (Some u) "username" with
  | Normal v => Normal (strict_eq v username)
  | Throw e => Throw e
  end.

(** The callback of login's [find]:
    [u => u.username === username && u.password === password]. *)
Definition same_credentials (username password : jsval) (u : json)
  : outcome bool :=
  match get_prop (Some u) "username" with
  | Normal v =>
      if strict_eq v username then
        match get_prop (Some u) "password" with
        | Normal w => Normal (strict_eq w password)
        | Throw e => Throw e
        end
      else Normal false
  | Throw e => Throw e
  end.

(** [users.find(cb)]: only an array has the method. *)
Definition find_in (users : json) (cb : json -> outcome bool)
  : outcome jsval :=
  match users with
  | JArr l => array_find cb l
  | _ => Throw TypeError
  end.

(** [app.post("/auth/signup", ...)]; [rnd] is what
    [Math.random().toString(36).slice(2, 9)] evaluates to. *)
Definition signup (rnd : string) (req : Request) : M Response :=
  username <- lift (get_prop (Some (body req)) "username") ;;
  password <- lift (get_prop (Some (body req)) "password") ;;
  if negb (truthy username) || negb (truthy password) then
    respond 400 (message "username and password are required")
  else
    users <- readUsers ;;
    exists_ <- lift (find_in users (same_username username)) ;;
    if truthy exists_ then
      respond 409 (message "username already exists")
    else
      let newUser :=
        object_literal
          [("id", Some (JStr rnd)); ("username", username);
           ("password", password)] in
      users <- lift (array_push users newUser) ;;
      writeUsers users ;;
      let token :=
        jwt_sign [("sub", Some (JStr rnd)); ("username", username)]
                 JWT_SECRET in
      respond 201
        (object_literal [("token", Some (JStr token)); ("username", username)]).

(** [app.post("/auth/login", ...)] *)
Definition login (req : Request) : M Response :=
  username <- lift (get_prop (Some (body req)) "username") ;;
  password <- lift (get_prop (Some (body req)) "password") ;;
  if negb (truthy username) || negb (truthy password) then
    respond 400 (message "username and password are required")
  else
    users <- readUsers ;;
    user <- lift (find_in users (same_credentials username password)) ;;
    if negb (truthy user) then
      respond 401 (message "invalid credentials")
    else
      sub <- lift (get_prop user "id") ;;
      let token := jwt_sign [("sub", sub); ("username", username)] JWT_SECRET in
      respond 200
        (object_literal [("token", Some (JStr token)); ("username", username)]).

(** [app.get("/todos", auth, ...)] *)
Definition get_todos (req : Request) : M Response :=
  auth req
    (todos <- readTodos ;;
     respond 200 todos).

(** [app.post("/todos", auth, ...)]; [rnd] is what
    [Math.random().toString(36).substring(2, 9)] evaluates to. *)
Definition post_todos (rnd : string) (req : Request) : M Response :=
  auth req
    (text <- lift (get_prop (Some (body req)) "text") ;;
     if negb (truthy text) then
       respond 400 (message "Todo text is required")
     else
       todos <- readTodos ;;
       let newTodo :=
         object_literal
           [("id", Some (JStr rnd)); ("text", text);
            ("completed", Some (JBool false))] in
       todos <- lift (array_push todos newTodo) ;;
       writeTodos todos ;;
       respond 201 newTodo).

(** The callback of the filter: [(todo) => todo.id !== id]. *)
Definition id_differs (id : string) (todo : json) : outcome bool :=
  match get_prop (Some todo) "id" with
  | Normal v => Normal (negb (strict_eq v (Some (JStr id))))
  | Throw e => Throw e
  end.

(** [app.delete("/todos/:id", auth, ...)].  [todos.length] and
    [todos.filter] exist together only on an array. *)
Definition delete_todo (req : Request) : M Response :=
  auth req
    (let id := params_id req in
     todos <- readTodos ;;
     match todos with
     | JArr l =>
         let initialLength := List.length l in
         todos <- lift (array_filter (id_differs id) l) ;;
         if (List.length todos =? initialLength)%nat then
           respond 404 (message "Todo not found")
         else
           writeTodos (JArr todos) ;;
           respond_empty 204
     | _ => throw TypeError
     end).

(** The five routes registered on [app]. *)
Inductive route : Type :=
| POST_auth_signup
| POST_auth_login
| GET_todos
| POST_todos
| DELETE_todos_id.

(** One request served; [rnd] is the identifier [Math.random()] would
    lead to, used by the two creating routes. *)
Definition serve (r : route) (rnd : string) (req : Request) : M Response :=
  match r with
  | POST_auth_signup => signup rnd req
  | POST_auth_login => login req
  | GET_todos => get_todos req
  | POST_todos => post_todos rnd req
  | DELETE_todos_id => delete_todo req
  end.

End Handlers.
End Index.

(** ** The typed records of the data model *)

Module Todo.
Record t : Type := mk { id : string; text : string; completed : bool }.

Definition to_json (x : t) : json :=
  JObj [("id", JStr (id x)); ("text", JStr (text x));
        ("completed", JBool (completed x))].
End Todo.

Module User.
Record t : Type := mk { id : string; username : string; password : string }.

Definition to_json (x : t) : json :=
  JObj [("id", JStr (id x)); ("username", JStr (username x));
        ("password", JStr (password x))].
End User.

(** ** What a file stands for *)

Section Store.
Context {P : Platform}.

(** The three readers ([readTodos] twice, [readUsers]) are one text up to
    the file they name. *)
Definition read_store (p : path) : M json :=
  try_catch
    (found <- existsSync p ;;
     if negb found then
       writeFileSync p "[]" ;;
       ret (JArr [])
     else
       data <- readFileSync p ;;
       if trim data =? "" then ret (JArr [])
       else lift (JSON_parse data))
    (fun error =>
       writeFileSync p "[]" ;;
       ret (JArr [])).

(** The file [p] exists and holds the JSON text of [v]. *)
Definition holds (fs : Files) (p : path) (v : json) : Prop :=
  exists data, file fs p = Some data /\ JSON_parse data = Normal v.

(** The list a file stands for: a missing, blank or malformed file stands
    for the empty list, a file with a JSON array for its elements.  A file
    with well-formed JSON that is not an array stands for no list. *)
Inductive stored (fs : Files) (p : path) : list json -> Prop :=
| stored_absent :
    file fs p = None -> stored fs p []
| stored_blank data :
    file fs p = Some data -> trim data = "" -> stored fs p []
| stored_corrupt data e :
    file fs p = Some data -> trim data <> "" ->
    JSON_parse data = Throw e -> stored fs p []
| stored_array data l :
    file fs p = Some data -> trim data <> "" ->
    JSON_parse data = Normal (JArr l) -> stored fs p l.

(** The request carries a bearer token that [jwt.verify] accepts. *)
Definition authorized (req : Request) : Prop :=
  exists token payload,
    authorization req = Some ("Bearer " ++ token) /\
    token <> "" /\
    jwt_verify token Index.JWT_SECRET = Normal payload.

(** The ways the claims name in which a request is not authorized. *)
Inductive unauthorized (req : Request) : Prop :=
| header_absent :
    authorization req = None -> unauthorized req
| header_not_bearer h :
    authorization req = Some h -> startsWith h "Bearer " = false ->
    unauthorized req
| token_refused h e :
    authorization req = Some h ->
    jwt_verify (slice h 7) Index.JWT_SECRET = Throw e ->
    unauthorized req.

End Store.

(** ** The vocabulary of the properties *)

Section Vocabulary.
Context {P : Platform}.

(** What the claim says of one reader of the file [p]. *)
Definition resets_corrupt (read : M json) (p : path) : Prop :=
  forall fs,
    (forall data e,
        file fs p = Some data -> trim data <> "" ->
        JSON_parse data = Throw e ->
        read fs = (Normal (JArr []), set_file fs p "[]")) /\
    (file fs p = None ->
     read fs = (Normal (JArr []), set_file fs p "[]")) /\
    (forall data,
        file fs p = Some data -> trim data = "" ->
        read fs = (Normal (JArr []), fs)) /\
    (exists v fs', read fs = (Normal v, fs')).

(** The three callbacks on the typed records. *)
Definition id_is_not (id : string) (x : Todo.t) : bool := negb (Todo.id x =? id).

Definition has_username (u : string) (x : User.t) : bool := User.username x =? u.

Definition has_credentials (u p : string) (x : User.t) : bool :=
  (User.username x =? u) && (User.password x =? p).

(** The body [{ token, username }] of a successful signup or login. *)
Definition signed_in (token : string) (u : string) : json :=
  JObj [("token", JStr token); ("username", JStr u)].

(** The three ways a signup with string (or absent) credentials ends:
    refused by the validation, refused because the name is taken, or
    stored. *)
Inductive signup_result (fs : Files) (us : list User.t) (rnd : string)
          (u p : option string) : outcome Response * Files -> Prop :=
| signup_invalid :
    truthy (option_map JStr u) = false \/ truthy (option_map JStr p) = false ->
    signup_result fs us rnd u p
      (Normal (mkResponse 400 (Some (message "username and password are required"))), fs)
| signup_taken name pw :
    u = Some name -> p = Some pw -> name <> "" -> pw <> "" ->
    In name (map User.username us) ->
    signup_result fs us rnd u p
      (Normal (mkResponse 409 (Some (message "username already exists"))), fs)
| signup_created name pw fs' :
    u = Some name -> p = Some pw -> name <> "" -> pw <> "" ->
    ~ In name (map User.username us) ->
    stored fs' USERS_FILE (map User.to_json (us ++ [User.mk rnd name pw])) ->
    file fs' TODOS_FILE = file fs TODOS_FILE ->
    signup_result fs us rnd u p
      (Normal (mkResponse 201 (Some (signed_in
         (jwt_sign [("sub", Some (JStr rnd)); ("username", Some (JStr name))]
                   Index.JWT_SECRET) name))), fs').

(** The stored user [x] has the username [u] and the password [p]. *)
Definition matches (u p : string) (x : User.t) : Prop :=
  User.username x = u /\ User.password x = p.

(** [m] leaves every file other than [p] as it was. *)
Definition writes_only {A} (p : path) (m : M A) : Prop :=
  forall fs o fs', m fs = (o, fs') -> forall q, q <> p -> file fs' q = file fs q.

(** The object POST /todos builds from a text that is present. *)
Definition created (rnd : string) (text : json) : json :=
  JObj [("id", JStr rnd); ("text", text); ("completed", JBool false)].

(** The filter of DELETE as a total test. *)
Definition keeps (id : string) (todo : json) : bool :=
  match Part000.id_differs id todo with
  | Normal b => b
  | Throw _ => true
  end.

End Vocabulary.

(** ** A reference platform

    A [JSON] that computes, written after [JSON.parse] and
    [JSON.stringify(v, null, 2)] for the values of [json], and a stand-in
    for [jsonwebtoken].  It shows that the laws asked of a platform can be
    met and lets the handlers run on concrete requests. *)

Module Reference.
Local Open Scope nat_scope.
Local Open Scope list_scope.

Definition text := list ascii.

Definition lit (s : string) : text := list_ascii_of_string s.

Definition dquote : ascii := "034"%char.
Definition backslash : ascii := "092"%char.
Definition newline : ascii := "010"%char.

Definition hex_char (n : nat) : ascii :=
  match n with
  | 0 => "0" | 1 => "1" | 2 => "2" | 3 => "3" | 4 => "4" | 5 => "5"
  | 6 => "6" | 7 => "7" | 8 => "8" | 9 => "9" | 10 => "a" | 11 => "b"
  | 12 => "c" | 13 => "d" | 14 => "e" | _ => "f"
  end%char.

Definition hex_value (c : ascii) : option nat :=
  let n := nat_of_ascii c in
  if (48 <=? n) && (n <=? 57) then Some (n - 48)
  else if (97 <=? n) && (n <=? 102) then Some (n - 87)
  else if (65 <=? n) && (n <=? 70) then Some (n - 55)
  else None.

(** One character of a string literal, as [JSON.stringify] writes it. *)
Definition escape (c : ascii) : text :=
  match nat_of_ascii c with
  | 8 => backslash :: lit "b"
  | 9 => backslash :: lit "t"
  | 10 => backslash :: lit "n"
  | 12 => backslash :: lit "f"
  | 13 => backslash :: lit "r"
  | 34 => [backslash; dquote]
  | 92 => [backslash; backslash]
  | n =>
      if n <? 32 then
        backslash :: lit "u00" ++ [hex_char (n / 16); hex_char (n mod 16)]
      else [c]
  end.

Definition print_string (s : string) : text :=
  dquote :: flat_map escape (list_ascii_of_string s) ++ [dquote].

Definition print_number (n : Z) : text :=
  match n with
  | Z0 => lit "0"
  | Zpos p => lit (NilEmpty.string_of_uint (N.to_uint (Npos p)))
  | Zneg p => "-"%char :: lit (NilEmpty.string_of_uint (N.to_uint (Npos p)))
  end.

Definition indent (n : nat) : text := newline :: repeat " "%char n.

(** The elements after the first, then the closing bracket. *)
Fixpoint more_elements (pr : json -> text) (ind : nat) (l : list json) : text :=
  match l with
  | [] => indent ind ++ lit "]"
  | y :: ys => ","%char :: indent (ind + 2) ++ pr y ++ more_elements pr ind ys
  end.

(** The members after the first, then the closing brace. *)
Fixpoint more_members (pr : json -> text) (ind : nat)
         (l : list (string * json)) : text :=
  match l with
  | [] => indent ind ++ lit "}"
  | (k, y) :: ys =>
      ","%char :: indent (ind + 2) ++ print_string k ++ lit ": " ++ pr y ++
      more_members pr ind ys
  end.

(** [JSON.stringify(v, null, 2)], [ind] spaces deep. *)
Fixpoint print (ind : nat) (v : json) : text :=
  match v with
  | JNull => lit "null"
  | JBool true => lit "true"
  | JBool false => lit "false"
  | JNum n => print_number n
  | JStr s => print_string s
  | JArr [] => lit "[]"
  | JArr (x :: xs) =>
      "["%char :: indent (ind + 2) ++ print (ind + 2) x ++
      more_elements (print (ind + 2)) ind xs
  | JObj [] => lit "{}"
  | JObj ((k, x) :: xs) =>
      "{"%char :: indent (ind + 2) ++ print_string k ++ lit ": " ++
      print (ind + 2) x ++ more_members (print (ind + 2)) ind xs
  end.

Definition stringify (v : json) : string := string_of_list_ascii (print 0 v).

Definition is_ws (c : ascii) : bool :=
  match nat_of_ascii c with
  | 9 | 10 | 13 | 32 => true
  | _ => false
  end.

Fixpoint skip_ws (s : text) : text :=
  match s with
  | c :: r => if is_ws c then skip_ws r else s
  | [] => []
  end.

Definition is_digit (c : ascii) : bool :=
  let n := nat_of_ascii c in (48 <=? n) && (n <=? 57).

Fixpoint expect (word s : text) : option text :=
  match word, s with
  | [], _ => Some s
  | w :: word', c :: s' => if Ascii.eqb w c then expect word' s' else None
  | _ :: _, [] => None
  end.

Definition simple_escape (e : ascii) : option ascii :=
  match nat_of_ascii e with
  | 34 => Some dquote
  | 92 => Some backslash
  | 47 => Some "/"%char
  | 98 => Some "008"%char
  | 102 => Some "012"%char
  | 110 => Some "010"%char
  | 114 => Some "013"%char
  | 116 => Some "009"%char
  | _ => None
  end.

Definition hex4 (a b c d : ascii) : option ascii :=
  match hex_value a, hex_value b, hex_value c, hex_value d with
  | Some 0, Some 0, Some x, Some y => Some (ascii_of_nat (16 * x + y))
  | _, _, _, _ => None
  end.

Definition push (c : ascii) (r : option (text * text)) : option (text * text) :=
  match r with
  | Some (cs, rest) => Some (c :: cs, rest)
  | None => None
  end.

(** The characters of a string literal after its opening quote. *)
Fixpoint parse_chars (s : text) : option (text * text) :=
  match s with
  | [] => None
  | c :: r =>
      if Ascii.eqb c dquote then Some ([], r)
      else if Ascii.eqb c backslash then
        match r with
        | [] => None
        | e :: r1 =>
            match simple_escape e with
            | Some c' => push c' (parse_chars r1)
            | None =>
                if Ascii.eqb e "u" then
                  match r1 with
                  | h1 :: h2 :: h3 :: h4 :: r5 =>
                      match hex4 h1 h2 h3 h4 with
                      | Some c' => push c' (parse_chars r5)
                      | None => None
                      end
                  | _ => None
                  end
                else None
            end
        end
      else if nat_of_ascii c <? 32 then None
      else push c (parse_chars r)
  end.

Fixpoint span_digits (s : text) : text * text :=
  match s with
  | c :: r =>
      if is_digit c then let (ds, rest) := span_digits r in (c :: ds, rest)
      else ([], s)
  | [] => ([], [])
  end.

(** An integer without leading zeros. *)
Definition parse_natural (s : text) : option (N * text) :=
  let (ds, rest) := span_digits s in
  match ds with
  | [] => None
  | _ =>
      match NilEmpty.uint_of_string (string_of_list_ascii ds) with
      | Some d =>
          if Decimal.uint_eq_dec (Decimal.unorm d) d
          then Some (N.of_uint d, rest)
          else None
      | None => None
      end
  end.

Definition parse_number (s : text) : option (json * text) :=
  match s with
  | "-"%char :: r =>
      match parse_natural r with
      | Some (n, rest) => Some (JNum (- Z.of_N n), rest)
      | None => None
      end
  | _ =>
      match parse_natural s with
      | Some (n, rest) => Some (JNum (Z.of_N n), rest)
      | None => None
      end
  end.

(** The elements of a non-empty array, up to and with its bracket. *)
Fixpoint parse_elements (value : text -> option (json * text)) (n : nat)
         (s : text) : option (list json * text) :=
  match n with
  | 0 => None
  | S n =>
      match value s with
      | Some (v, r) =>
          match skip_ws r with
          | c :: r' =>
              if Ascii.eqb c "," then
                match parse_elements value n r' with
                | Some (vs, rest) => Some (v :: vs, rest)
                | None => None
                end
              else if Ascii.eqb c "]" then Some ([v], r')
              else None
          | [] => None
          end
      | None => None
      end
  end.

(** The members of a non-empty object, up to and with its brace. *)
Fixpoint parse_members (value : text -> option (json * text)) (n : nat)
         (s : text) : option (list (string * json) * text) :=
  match n with
  | 0 => None
  | S n =>
      match skip_ws s with
      | q :: r0 =>
          if Ascii.eqb q dquote then
            match parse_chars r0 with
            | Some (k, r1) =>
                match skip_ws r1 with
                | c :: r2 =>
                    if Ascii.eqb c ":" then
                      match value r2 with
                      | Some (v, r3) =>
                          match skip_ws r3 with
                          | d :: r4 =>
                              if Ascii.eqb d "," then
                                match parse_members value n r4 with
                                | Some (kvs, rest) =>
                                    Some ((string_of_list_ascii k, v) :: kvs, rest)
                                | None => None
                                end
                              else if Ascii.eqb d "}" then
                                Some ([(string_of_list_ascii k, v)], r4)
                              else None
                          | [] => None
                          end
                      | None => None
                      end
                    else None
                | [] => None
                end
            | None => None
            end
          else None
      | [] => None
      end
  end.

Fixpoint parse_value (fuel : nat) (s : text) : option (json * text) :=
  match fuel with
  | 0 => None
  | S fuel =>
      match skip_ws s with
      | [] => None
      | c :: r =>
          if Ascii.eqb c "n" then option_map (pair JNull) (expect (lit "ull") r)
          else if Ascii.eqb c "t" then
            option_map (pair (JBool true)) (expect (lit "rue") r)
          else if Ascii.eqb c "f" then
            option_map (pair (JBool false)) (expect (lit "alse") r)
          else if Ascii.eqb c dquote then
            match parse_chars r with
            | Some (cs, rest) => Some (JStr (string_of_list_ascii cs), rest)
            | None => None
            end
          else if Ascii.eqb c "[" then
            match skip_ws r with
            | [] => None
            | c' :: rest =>
                if Ascii.eqb c' "]" then Some (JArr [], rest)
                else
                  match parse_elements (parse_value fuel) fuel r with
                  | Some (vs, rest) => Some (JArr vs, rest)
                  | None => None
                  end
            end
          else if Ascii.eqb c "{" then
            match skip_ws r with
            | [] => None
            | c' :: rest =>
                if Ascii.eqb c' "}" then Some (JObj [], rest)
                else
                  match parse_members (parse_value fuel) fuel r with
                  | Some (kvs, rest) => Some (JObj kvs, rest)
                  | None => None
                  end
            end
          else parse_number (c :: r)
      end
  end.

(** [JSON.parse]: one value, white space around it, nothing else. *)
Definition parse (data : string) : outcome json :=
  let s := list_ascii_of_string data in
  match parse_value (S (List.length s)) s with
  | Some (v, rest) =>
      match skip_ws rest with
      | [] => Normal v
      | _ :: _ => Throw SyntaxError
      end
  | None => Throw SyntaxError
  end.

(** What may follow a number: anything but a digit. *)
Definition ends_number (r : text) : Prop :=
  match r with
  | [] => True
  | c :: _ => is_digit c = false
  end.

(** A first character of a value: no white space, no closing bracket. *)
Definition opens (c : ascii) : bool :=
  negb (is_ws c) && negb (Ascii.eqb c "]") && negb (Ascii.eqb c "}").

(** Printing then reading gives the value back, whatever follows it. *)
Definition round_trips (v : json) : Prop :=
  forall ind rest fuel,
    length (print ind v ++ rest) <= fuel ->
    ends_number rest ->
    parse_value fuel (print ind v ++ rest) = Some (v, rest).

(** *** Tokens

    The stand-in signs by writing the secret in front of the claims and
    verifies by looking for it there; it knows no expiry.  No theorem
    depends on it: the handlers are proved for every [jwt_verify] and
    [jwt_sign], and the stand-in only lets them run. *)

Definition sign (claims : list (string * jsval)) (secret : string) : string :=
  (secret ++ "." ++ stringify (object_literal claims))%string.

Definition verify (token secret : string) : outcome json :=
  if String.prefix (secret ++ ".")%string token then
    match parse (substring (String.length secret + 1)
                           (String.length token - (String.length secret + 1))
                           token) with
    | Normal claims => Normal claims
    | Throw _ => Throw JsonWebTokenError
    end
  else Throw JsonWebTokenError.

(** The platform of a server started without [JWT_SECRET] set. *)
Definition platform : Platform := {|
  JSON_parse := parse;
  JSON_stringify := stringify;
  jwt_verify := verify;
  jwt_sign := sign;
  env_JWT_SECRET := None
|}.

End Reference.

(** ** Blank texts *)

(** Every character of [s] is one that [trim] strips. *)
Fixpoint all_space (s : string) : bool :=
  match s with
  | EmptyString => true
  | String c r => is_space c && all_space r
  end.

(** ** A server to run

    Requests and files on which the handlers are evaluated, over the
    reference platform. *)

Definition ann_token : string :=
  Reference.sign [("sub", Some (JStr "k3v9x1a")); ("username", Some (JStr "ann"))]
                 "dev-secret".

(** A request with a token the reference platform accepts. *)
Definition bearer (b : json) (id : string) : Request :=
  mkRequest (Some ("Bearer " ++ ann_token)) b id.

(** A request with no [Authorization] header. *)
Definition anonymous (b : json) (id : string) : Request := mkRequest None b id.

Definition some_todos : list Todo.t :=
  [Todo.mk "a1b2c3d" "milk" false; Todo.mk "e4f5g6h" "eggs" false;
   Todo.mk "a1b2c3d" "bread" false].

Definition some_users : list User.t := [User.mk "k3v9x1a" "ann" "secret"].

(** Both files written by the server itself. *)
Definition busy : Files :=
  mkFiles (Some (Reference.stringify (JArr (map Todo.to_json some_todos))))
          (Some (Reference.stringify (JArr (map User.to_json some_users)))).

(** A directory the server has not written to yet. *)
Definition fresh : Files := mkFiles None None.

Definition credentials (u p : string) : json :=
  JObj [("username", JStr u); ("password", JStr p)].

(** ** The server as a loop, and more vocabulary *)

Section Server.
Context {P : Platform}.

(** One incoming request: the route Express matched, the identifier
    [Math.random()] leads to should the route create something, and the
    request. *)
Record Call : Type := mkCall {
  call_route : Index.route;
  call_rnd : string;
  call_req : Request
}.

(** Node runs the synchronous handlers one after the other: each request
    is served on the files the one before left. *)
Fixpoint replay (calls : list Call) (fs : Files)
  : list (outcome Response) * Files :=
  match calls with
  | [] => ([], fs)
  | c :: rest =>
      let (o, fs1) := Index.serve (call_route c) (call_rnd c) (call_req c) fs in
      let (os, fs2) := replay rest fs1 in
      (o :: os, fs2)
  end.

(** [x] is an object, as every element is that the server itself stores. *)
Definition is_object (x : json) : bool :=
  match x with
  | JObj _ => true
  | _ => false
  end.

(** Both files stand for lists of objects. *)
Definition kept (fs : Files) : Prop :=
  (exists todos, stored fs TODOS_FILE todos /\ forallb is_object todos = true) /\
  (exists users, stored fs USERS_FILE users /\ forallb is_object users = true).

(** The request passed [express.json()] with a body that is not [null], so
    destructuring it does not throw. *)
Definition has_body (c : Call) : Prop := body (call_req c) <> JNull.

(** The file the route works on. *)
Definition file_of (r : Index.route) : path :=
  match r with
  | Index.POST_auth_signup | Index.POST_auth_login => USERS_FILE
  | _ => TODOS_FILE
  end.

(** The file was read as it is: it holds a value that is no array, or an
    array with a [null] in it. *)
Definition misshapen (fs : Files) (p : path) : Prop :=
  exists v,
    holds fs p v /\
    ((forall l, v <> JArr l) \/ (exists l, v = JArr l /\ In JNull l)).

(** The user [signup] stores. *)
Definition new_user (rnd : string) (username password : jsval) : json :=
  object_literal
    [("id", Some (JStr rnd)); ("username", username); ("password", password)].

(** The body [{ token, username }] for any username. *)
Definition session (token : string) (username : jsval) : json :=
  object_literal [("token", Some (JStr token)); ("username", username)].

(** The statuses a route can answer with. *)
Definition statuses (r : Index.route) : list nat :=
  match r with
  | Index.POST_auth_signup => [201; 400; 409]
  | Index.POST_auth_login => [200; 400; 401]
  | Index.GET_todos => [200; 401]
  | Index.POST_todos => [201; 400; 401]
  | Index.DELETE_todos_id => [204; 401; 404]
  end.

(** A file that stands for a list of objects. *)
Definition well_shaped (fs : Files) (p : path) : Prop :=
  exists l, stored fs p l /\ forallb is_object l = true.

End Server.

(** ** More to run *)

(** Files with JSON of the wrong shape. *)
Definition objects : Files := mkFiles (Some "{}") (Some "{}").


(** A malformed todos file. *)
Definition broken : Files := mkFiles (Some "{oops") None.

(** A morning of requests: two signups of one name, a login, a note
    posted and deleted, a deletion repeated. *)
Definition morning : list Call :=
  [mkCall Index.POST_auth_signup "m5n6p7q" (anonymous (credentials "bob" "hunter2") "");
   mkCall Index.POST_auth_signup "r8s9t0u" (anonymous (credentials "bob" "other") "");
   mkCall Index.POST_auth_login "" (anonymous (credentials "bob" "hunter2") "");
   mkCall Index.POST_todos "q1w2e3r" (bearer (JObj [("text", JStr "tea")]) "");
   mkCall Index.GET_todos "" (anonymous (JObj []) "");
   mkCall Index.DELETE_todos_id "" (bearer (JObj []) "q1w2e3r");
   mkCall Index.DELETE_todos_id "" (bearer (JObj []) "q1w2e3r")].

(** * Proofs *)

(** ** The reference [JSON] reads back what it writes *)

Section ReferenceFacts.
Import Reference.
Local Open Scope nat_scope.
Local Open Scope list_scope.

Ltac each_char c := destruct c as [[] [] [] [] [] [] [] []].

Lemma parse_chars_escape c r :
  parse_chars (escape c ++ r) = push c (parse_chars r).
Proof. each_char c; reflexivity. Qed.

Lemma parse_chars_print cs r :
  parse_chars (flat_map escape cs ++ dquote :: r) = Some (cs, r).
Proof.
  induction cs as [|c cs IH]; [reflexivity|].
  cbn [flat_map]. rewrite <- app_assoc, parse_chars_escape, IH. reflexivity.
Qed.

Lemma span_digits_uint d r :
  ends_number r ->
  span_digits (lit (NilEmpty.string_of_uint d) ++ r) =
  (lit (NilEmpty.string_of_uint d), r).
Proof.
  intros Hr. unfold lit.
  induction d; cbn; try (rewrite IHd; reflexivity).
  destruct r as [|c r]; [reflexivity|]. cbn in Hr |- *. now rewrite Hr.
Qed.

Lemma to_uint_normal n : Decimal.unorm (N.to_uint n) = N.to_uint n.
Proof.
  rewrite <- (DecimalN.Unsigned.of_to n) at 2. symmetry. apply DecimalN.Unsigned.to_of.
Qed.

Lemma uint_text_nonempty n : lit (NilEmpty.string_of_uint (N.to_uint n)) <> [].
Proof.
  destruct n as [|p]; [discriminate|].
  pose proof (DecimalPos.Unsigned.to_uint_nonnil p) as H.
  cbn [N.to_uint]. destruct (Pos.to_uint p); [congruence|discriminate..].
Qed.

Lemma parse_natural_print n r :
  ends_number r ->
  parse_natural (lit (NilEmpty.string_of_uint (N.to_uint n)) ++ r) = Some (n, r).
Proof.
  intros Hr. unfold parse_natural. rewrite (span_digits_uint _ _ Hr).
  pose proof (uint_text_nonempty n) as Hne.
  destruct (lit (NilEmpty.string_of_uint (N.to_uint n))) as [|c cs] eqn:E; [congruence|].
  rewrite <- E. unfold lit. rewrite string_of_list_ascii_of_string, NilEmpty.usu.
  destruct (Decimal.uint_eq_dec _ _) as [_|Hn].
  - now rewrite DecimalN.Unsigned.of_to.
  - exfalso. apply Hn, to_uint_normal.
Qed.

Lemma uint_text_head n :
  exists c cs,
    lit (NilEmpty.string_of_uint (N.to_uint n)) = c :: cs /\ is_digit c = true.
Proof.
  destruct n as [|p]; [exists "0"%char, []; split; reflexivity|].
  pose proof (DecimalPos.Unsigned.to_uint_nonnil p) as H.
  cbn [N.to_uint]. destruct (Pos.to_uint p); [congruence|..];
    eexists _, _; split; reflexivity.
Qed.

Lemma parse_value_digit fuel c r :
  is_digit c = true ->
  parse_value (S fuel) (c :: r) =
  match parse_natural (c :: r) with
  | Some (n, rest) => Some (JNum (Z.of_N n), rest)
  | None => None
  end.
Proof. each_char c; try discriminate; reflexivity. Qed.

Lemma parse_value_minus fuel r :
  parse_value (S fuel) ("-"%char :: r) =
  match parse_natural r with
  | Some (n, rest) => Some (JNum (- Z.of_N n), rest)
  | None => None
  end.
Proof. reflexivity. Qed.

Lemma parse_value_number fuel z r :
  ends_number r ->
  parse_value (S fuel) (print_number z ++ r) = Some (JNum z, r).
Proof.
  intros Hr. destruct z as [|p|p]; unfold print_number.
  - change (lit "0") with (lit (NilEmpty.string_of_uint (N.to_uint 0))).
    destruct (uint_text_head 0) as (c & cs & E & Hc).
    rewrite E. cbn [app]. rewrite (parse_value_digit _ _ _ Hc).
    change (c :: cs ++ r) with ((c :: cs) ++ r). rewrite <- E.
    now rewrite (parse_natural_print _ _ Hr).
  - destruct (uint_text_head (Npos p)) as (c & cs & E & Hc).
    rewrite E. cbn [app]. rewrite (parse_value_digit _ _ _ Hc).
    change (c :: cs ++ r) with ((c :: cs) ++ r). rewrite <- E.
    now rewrite (parse_natural_print _ _ Hr).
  - cbn [app]. rewrite parse_value_minus.
    now rewrite (parse_natural_print _ _ Hr).
Qed.

Lemma digit_opens c : is_digit c = true -> opens c = true.
Proof. each_char c; try discriminate; reflexivity. Qed.

Lemma print_opens ind v :
  exists c cs, print ind v = c :: cs /\ opens c = true.
Proof.
  destruct v as [|[]|[|p|p]| |[|x xs]|[|[k x] xs]]; cbn [print print_number];
    try (eexists _, _; split; reflexivity).
  destruct (uint_text_head (Npos p)) as (c & cs & E & Hc).
  exists c, cs. split; [exact E|now apply digit_opens].
Qed.

Lemma skip_ws_opens c r : opens c = true -> skip_ws (c :: r) = c :: r.
Proof.
  unfold opens. intros H. cbn [skip_ws].
  destruct (is_ws c); [discriminate|reflexivity].
Qed.

Lemma skip_ws_indent n s : skip_ws (indent n ++ s) = skip_ws s.
Proof.
  unfold indent. cbn. induction n as [|n IH]; [reflexivity|exact IH].
Qed.

Lemma parse_value_indent fuel n s :
  parse_value fuel (indent n ++ s) = parse_value fuel s.
Proof. destruct fuel; [reflexivity|]. cbn [parse_value]. now rewrite skip_ws_indent. Qed.

Lemma parse_value_space fuel s :
  parse_value fuel (" "%char :: s) = parse_value fuel s.
Proof. destruct fuel; reflexivity. Qed.

Lemma more_elements_ends pr ind xs rest :
  ends_number (more_elements pr ind xs ++ rest).
Proof. destruct xs; reflexivity. Qed.

Lemma more_members_ends pr ind xs rest :
  ends_number (more_members pr ind xs ++ rest).
Proof. destruct xs as [|[k y] ys]; reflexivity. Qed.

Ltac lengths :=
  repeat (rewrite ?length_app in *; cbn [length app] in * );
  lia.

Lemma skip_ws_comma s : skip_ws (","%char :: s) = ","%char :: s.
Proof. reflexivity. Qed.

Lemma elements_round_trip f ind rest xs :
  Forall round_trips xs ->
  forall x n,
    round_trips x ->
    length (print (ind + 2) x ++ more_elements (print (ind + 2)) ind xs ++ rest) <= f ->
    length (print (ind + 2) x ++ more_elements (print (ind + 2)) ind xs ++ rest) <= n ->
    parse_elements (parse_value f) n
      (indent (ind + 2) ++ print (ind + 2) x ++
       more_elements (print (ind + 2)) ind xs ++ rest) =
    Some (x :: xs, rest).
Proof.
  induction 1 as [|y ys Hy Hys IH]; intros x n Hx Hf Hn.
  - destruct n as [|n].
    { destruct (print_opens (ind + 2) x) as (c & cs & E & _). rewrite E in Hn.
      cbn in Hn. lia. }
    cbn [parse_elements]. rewrite parse_value_indent.
    rewrite (Hx (ind + 2) _ f Hf (more_elements_ends _ _ _ _)).
    cbn [more_elements]. rewrite <- app_assoc, skip_ws_indent. reflexivity.
  - destruct n as [|n].
    { destruct (print_opens (ind + 2) x) as (c & cs & E & _). rewrite E in Hn.
      cbn in Hn. lia. }
    cbn [parse_elements]. rewrite parse_value_indent.
    rewrite (Hx (ind + 2) _ f Hf (more_elements_ends _ _ _ _)).
    cbn [more_elements app] in *. rewrite skip_ws_comma.
    change (Ascii.eqb "," ",") with true. cbv iota.
    rewrite <- !app_assoc in *.
    rewrite (IH y n Hy); [reflexivity| |]; lengths.
Qed.

Lemma parse_members_key value n ind k s :
  parse_members value (S n) (indent ind ++ print_string k ++ lit ": " ++ s) =
  match value (" "%char :: s) with
  | Some (v, r3) =>
      match skip_ws r3 with
      | d :: r4 =>
          if Ascii.eqb d "," then
            match parse_members value n r4 with
            | Some (kvs, rest) => Some ((k, v) :: kvs, rest)
            | None => None
            end
          else if Ascii.eqb d "}" then Some ([(k, v)], r4)
          else None
      | [] => None
      end
  | None => None
  end.
Proof.
  cbn [parse_members]. rewrite skip_ws_indent. unfold print_string.
  cbn [app]. change (skip_ws (dquote :: ?l)) with (dquote :: l).
  change (Ascii.eqb dquote dquote) with true. cbv iota.
  rewrite <- app_assoc. cbn [app]. rewrite parse_chars_print.
  rewrite string_of_list_ascii_of_string. reflexivity.
Qed.

Lemma members_round_trip f ind rest xs :
  Forall (fun kv => round_trips (snd kv)) xs ->
  forall k x n,
    round_trips x ->
    length (print (ind + 2) x ++ more_members (print (ind + 2)) ind xs ++ rest) <= f ->
    length (print (ind + 2) x ++ more_members (print (ind + 2)) ind xs ++ rest) < n ->
    parse_members (parse_value f) n
      (indent (ind + 2) ++ print_string k ++ lit ": " ++ print (ind + 2) x ++
       more_members (print (ind + 2)) ind xs ++ rest) =
    Some ((k, x) :: xs, rest).
Proof.
  induction 1 as [|[k' y] ys Hy Hys IH]; intros k x n Hx Hf Hn.
  - destruct n as [|n]; [lia|].
    rewrite parse_members_key, parse_value_space.
    rewrite (Hx (ind + 2) _ f Hf (more_members_ends _ _ _ _)).
    cbn [more_members]. rewrite <- app_assoc, skip_ws_indent. reflexivity.
  - destruct n as [|n]; [lia|].
    rewrite parse_members_key, parse_value_space.
    rewrite (Hx (ind + 2) _ f Hf (more_members_ends _ _ _ _)).
    cbn [more_members app] in *. rewrite skip_ws_comma.
    change (Ascii.eqb "," ",") with true. cbv iota.
    rewrite <- !app_assoc in *.
    rewrite (IH k' y n Hy); [reflexivity| |]; unfold print_string in *; lengths.
Qed.

Lemma parse_value_bracket f r :
  parse_value (S f) ("["%char :: r) =
  match skip_ws r with
  | [] => None
  | c' :: rest =>
      if Ascii.eqb c' "]" then Some (JArr [], rest)
      else
        match parse_elements (parse_value f) f r with
        | Some (vs, rest) => Some (JArr vs, rest)
        | None => None
        end
  end.
Proof. reflexivity. Qed.

Lemma parse_value_brace f r :
  parse_value (S f) ("{"%char :: r) =
  match skip_ws r with
  | [] => None
  | c' :: rest =>
      if Ascii.eqb c' "}" then Some (JObj [], rest)
      else
        match parse_members (parse_value f) f r with
        | Some (kvs, rest) => Some (JObj kvs, rest)
        | None => None
        end
  end.
Proof. reflexivity. Qed.

Lemma parse_value_quote f r :
  parse_value (S f) (dquote :: r) =
  match parse_chars r with
  | Some (cs, rest) => Some (JStr (string_of_list_ascii cs), rest)
  | None => None
  end.
Proof. reflexivity. Qed.

Lemma list_all_Forall {A} (Q : A -> Prop) l : list_all A Q l -> Forall Q l.
Proof. induction 1; constructor; auto. Qed.

Lemma members_Forall (Q : json -> Prop) (l : list (string * json)) :
  list_all (string * json) (prod_all string (fun _ => unit) json Q) l ->
  Forall (fun kv => Q (snd kv)) l.
Proof.
  induction 1 as [|kv q l _ IH]; constructor; [|exact IH].
  destruct q. assumption.
Qed.

Lemma print_nonempty ind v rest : length (print ind v ++ rest) <= 0 -> False.
Proof.
  destruct (print_opens ind v) as (c & cs & E & _). rewrite E. cbn. lia.
Qed.

Theorem print_round_trips v : round_trips v.
Proof.
  induction v as [|b|z|s|xs IH|kvs IH]; intros ind rest fuel Hlen Hrest;
    (destruct fuel as [|f];
     [pose proof (print_nonempty ind _ rest Hlen) as []|]).
  - reflexivity.
  - destruct b; reflexivity.
  - now apply parse_value_number.
  - cbn [print]. unfold print_string. cbn [app]. rewrite parse_value_quote.
    rewrite <- app_assoc. cbn [app]. rewrite parse_chars_print.
    now rewrite string_of_list_ascii_of_string.
  - apply list_all_Forall in IH. destruct IH as [|x xs Hx Hxs]; [reflexivity|].
    cbn [print app] in *. rewrite <- !app_assoc in *.
    rewrite parse_value_bracket, skip_ws_indent.
    destruct (print_opens (ind + 2) x) as (c & cs & E & Hc).
    rewrite E at 1. cbn [app]. rewrite (skip_ws_opens _ _ Hc).
    unfold opens in Hc. destruct (Ascii.eqb c "]"); [now rewrite andb_false_r in Hc|].
    rewrite (elements_round_trip f ind rest xs Hxs x f Hx); [reflexivity| |]; lengths.
  - apply members_Forall in IH. destruct IH as [|[k x] xs Hx Hxs]; [reflexivity|].
    cbn [print app snd] in *. rewrite <- !app_assoc in *.
    rewrite parse_value_brace, skip_ws_indent.
    unfold print_string at 1. cbn [app].
    change (skip_ws (dquote :: ?l)) with (dquote :: l).
    change (Ascii.eqb dquote "}") with false. cbv iota.
    rewrite (members_round_trip f ind rest xs Hxs k x f Hx); [reflexivity| |];
      unfold print_string in *; lengths.
Qed.

Theorem reference_parse_stringify v : parse (stringify v) = Normal v.
Proof.
  unfold parse, stringify. rewrite list_ascii_of_string_of_list_ascii.
  pose proof (print_round_trips v 0 [] (S (length (print 0 v)))) as H.
  rewrite app_nil_r in H. rewrite H; [reflexivity| |exact I]. lia.
Qed.

End ReferenceFacts.

(** ** Files, readers and the middleware *)

Section Facts.
Context {P : Platform}.

Lemma Part000_readTodos_eq : Part000.readTodos = read_store TODOS_FILE.
Proof. reflexivity. Qed.

Lemma Index_readTodos_eq : Index.readTodos = read_store TODOS_FILE.
Proof. reflexivity. Qed.

Lemma Index_readUsers_eq : Index.readUsers = read_store USERS_FILE.
Proof. reflexivity. Qed.

Ltac run :=
  unfold read_store, try_catch, bind, ret, lift, throw, existsSync,
    readFileSync, writeFileSync, respond, respond_empty in *;
  simpl in *.

Lemma read_store_absent fs p :
  file fs p = None ->
  read_store p fs = (Normal (JArr []), set_file fs p "[]").
Proof. intros H. run. rewrite H. reflexivity. Qed.

Lemma read_store_blank fs p data :
  file fs p = Some data -> trim data = "" ->
  read_store p fs = (Normal (JArr []), fs).
Proof.
  intros H Hb. run. rewrite H. simpl. rewrite H. rewrite Hb. reflexivity.
Qed.

Lemma read_store_corrupt fs p data e :
  file fs p = Some data -> trim data <> "" -> JSON_parse data = Throw e ->
  read_store p fs = (Normal (JArr []), set_file fs p "[]").
Proof.
  intros H Hb He. run. rewrite H. simpl. rewrite H.
  apply String.eqb_neq in Hb. rewrite Hb, He. reflexivity.
Qed.

Lemma read_store_parsed fs p data v :
  file fs p = Some data -> trim data <> "" -> JSON_parse data = Normal v ->
  read_store p fs = (Normal v, fs).
Proof.
  intros H Hb He. run. rewrite H. simpl. rewrite H.
  apply String.eqb_neq in Hb. rewrite Hb, He. reflexivity.
Qed.

Lemma read_store_total fs p :
  exists v fs', read_store p fs = (Normal v, fs').
Proof.
  destruct (file fs p) as [data|] eqn:H.
  - destruct (String.eqb_spec (trim data) "") as [Hb|Hb].
    + rewrite (read_store_blank _ _ _ H Hb). eauto.
    + destruct (JSON_parse data) as [v|e] eqn:He.
      * rewrite (read_store_parsed _ _ _ _ H Hb He). eauto.
      * rewrite (read_store_corrupt _ _ _ _ H Hb He). eauto.
  - rewrite (read_store_absent _ _ H). eauto.
Qed.

Lemma file_set_same fs p d : file (set_file fs p d) p = Some d.
Proof. destruct p; reflexivity. Qed.

Lemma file_set_other fs p q d : q <> p -> file (set_file fs p d) q = file fs q.
Proof. destruct p, q; intros H; try reflexivity; congruence. Qed.

Lemma trim_brackets : trim "[]" <> "".
Proof. discriminate. Qed.

Context {L : JsonLaws P}.

Lemma holds_read fs p v : holds fs p v -> read_store p fs = (Normal v, fs).
Proof.
  intros (data & Hf & Hp). eapply read_store_parsed; eauto.
  eapply parse_nonblank; eauto.
Qed.

Lemma holds_write fs p v : holds (set_file fs p (JSON_stringify v)) p v.
Proof.
  exists (JSON_stringify v). split; [apply file_set_same | apply parse_stringify].
Qed.

Lemma holds_stored fs p l : holds fs p (JArr l) -> stored fs p l.
Proof.
  intros (data & Hf & Hp). eapply stored_array; eauto.
  eapply parse_nonblank; eauto.
Qed.

Lemma stored_reset fs p : stored (set_file fs p "[]") p [].
Proof.
  eapply stored_array;
    [apply file_set_same | apply trim_brackets | apply parse_empty_array].
Qed.

Lemma stored_read fs p l :
  stored fs p l ->
  exists fs', read_store p fs = (Normal (JArr l), fs') /\ stored fs' p l /\
              (fs' = fs \/ l = [] /\ fs' = set_file fs p "[]").
Proof.
  intros [H | data H Hb | data e H Hb He | data l' H Hb Hp].
  - rewrite (read_store_absent _ _ H).
    eexists; split; [reflexivity|]. split; [apply stored_reset | auto].
  - rewrite (read_store_blank _ _ _ H Hb).
    eexists; split; [reflexivity|]. split; [|auto]. eapply stored_blank; eauto.
  - rewrite (read_store_corrupt _ _ _ _ H Hb He).
    eexists; split; [reflexivity|]. split; [apply stored_reset | auto].
  - rewrite (read_store_parsed _ _ _ _ H Hb Hp).
    eexists; split; [reflexivity|]. split; [|auto]. eapply stored_array; eauto.
Qed.

Lemma stored_write fs p l : stored (set_file fs p (JSON_stringify (JArr l))) p l.
Proof. apply holds_stored, holds_write. Qed.

Lemma substring_all s : substring 0 (String.length s) s = s.
Proof. induction s; simpl; congruence. Qed.

Lemma auth_authorized req next : authorized req -> Index.auth req next = next.
Proof.
  intros (token & payload & Hh & Hne & Hv). unfold Index.auth. rewrite Hh.
  cbn [or_else append String.eqb].
  unfold startsWith, slice. simpl. rewrite Nat.sub_0_r, substring_all.
  destruct token; [congruence|]. simpl. rewrite Hv. reflexivity.
Qed.

Lemma auth_rejects req :
  unauthorized req ->
  exists m, forall next fs,
    Index.auth req next fs = (Normal (mkResponse 401 (Some (message m))), fs).
Proof.
  intros [H | h H Hs | h e H Hv]; unfold Index.auth; rewrite H; cbn [or_else].
  - simpl. eexists; reflexivity.
  - destruct (h =? "") eqn:E.
    + simpl. eexists; reflexivity.
    + rewrite Hs. eexists; reflexivity.
  - destruct (h =? "") eqn:E.
    + simpl. eexists; reflexivity.
    + destruct (startsWith h "Bearer "); [|eexists; reflexivity].
      destruct (slice h 7) eqn:Es; [eexists; reflexivity|].
      rewrite Hv. eexists; reflexivity.
Qed.

Lemma auth_cases req :
  (forall next, Index.auth req next = next) \/
  (exists m, forall next fs,
      Index.auth req next fs = (Normal (mkResponse 401 (Some (message m))), fs)).
Proof.
  unfold Index.auth.
  destruct (startsWith (or_else (authorization req) "") "Bearer ");
    [|right; eexists; reflexivity].
  destruct (slice (or_else (authorization req) "") 7) as [|c token];
    [right; eexists; reflexivity|].
  destruct (jwt_verify (String c token) Index.JWT_SECRET);
    [left; reflexivity|right; eexists; reflexivity].
Qed.

(** *** The readers never throw *)

Lemma read_store_resets p : resets_corrupt (read_store p) p.
Proof.
  intros fs. repeat split.
  - intros; eapply read_store_corrupt; eauto.
  - apply read_store_absent.
  - intros; eapply read_store_blank; eauto.
  - apply read_store_total.
Qed.

(** C7.  Each of the three readers returns the empty list and rewrites
    the file to "[]" when the file holds text that is neither blank nor
    well-formed JSON; it returns the empty list for a missing file (which
    it creates as "[]") and for a blank one (which it leaves); and it
    returns normally on every content. *)
Theorem read_resets_corrupt_file :
  resets_corrupt Index.readTodos TODOS_FILE /\
  resets_corrupt Index.readUsers USERS_FILE /\
  resets_corrupt Part000.readTodos TODOS_FILE.
Proof.
  rewrite Index_readTodos_eq, Index_readUsers_eq, Part000_readTodos_eq.
  repeat split; apply read_store_resets.
Qed.

(** *** POST, then GET *)

Lemma text_of_string_truthy t : t <> "" -> truthy (Some (JStr t)) = true.
Proof. intros H. simpl. apply String.eqb_neq in H. now rewrite H. Qed.

(** POST /todos behind a passed [auth]: what happens for a truthy text. *)
Lemma post_body_creates fs l rnd req text :
  stored fs TODOS_FILE l ->
  get_prop (Some (body req)) "text" = Normal (Some text) ->
  truthy (Some text) = true ->
  let todo := JObj [("id", JStr rnd); ("text", text); ("completed", JBool false)] in
  exists fs0,
    Part000.post_todos rnd req fs =
      (Normal (mkResponse 201 (Some todo)),
       set_file fs0 TODOS_FILE (JSON_stringify (JArr (l ++ [todo])))) /\
    (fs0 = fs \/ l = [] /\ fs0 = set_file fs TODOS_FILE "[]").
Proof.
  intros Hs Ht Htr todo.
  destruct (stored_read _ _ _ Hs) as (fs0 & Hr & _ & Hfs0).
  exists fs0. split; [|exact Hfs0].
  unfold Part000.post_todos, bind, lift. rewrite Ht, Htr. cbn [negb].
  rewrite Part000_readTodos_eq, Hr. reflexivity.
Qed.

Lemma index_post_is_part000 rnd req :
  authorized req -> Index.post_todos rnd req = Part000.post_todos rnd req.
Proof. intros H. unfold Index.post_todos. rewrite (auth_authorized _ _ H). reflexivity. Qed.

Lemma index_get_is_part000 req :
  authorized req -> Index.get_todos req = Part000.get_todos req.
Proof. intros H. unfold Index.get_todos. rewrite (auth_authorized _ _ H). reflexivity. Qed.

Lemma index_delete_is_part000 req :
  authorized req -> Index.delete_todo req = Part000.delete_todo req.
Proof. intros H. unfold Index.delete_todo. rewrite (auth_authorized _ _ H). reflexivity. Qed.

Lemma get_holds fs v req :
  holds fs TODOS_FILE v ->
  Part000.get_todos req fs = (Normal (mkResponse 200 (Some v)), fs).
Proof.
  intros H. unfold Part000.get_todos, bind. rewrite Part000_readTodos_eq, (holds_read _ _ _ H).
  reflexivity.
Qed.

(** C1.  Whatever list the todos file stands for, an authorized POST
    /todos with a non-empty text [t] answers 201 with the todo
    [{id, text: t, completed: false}], and every authorized GET /todos
    that follows returns the old list followed by exactly that todo. *)
Theorem created_todo_round_trips :
  forall fs l req rnd t,
    stored fs TODOS_FILE l ->
    authorized req ->
    get_prop (Some (body req)) "text" = Normal (Some (JStr t)) ->
    t <> "" ->
    let todo := Todo.to_json (Todo.mk rnd t false) in
    exists fs',
      Index.post_todos rnd req fs = (Normal (mkResponse 201 (Some todo)), fs') /\
      forall req',
        authorized req' ->
        exists todos,
          Index.get_todos req' fs' =
            (Normal (mkResponse 200 (Some (JArr todos))), fs') /\
          todos = (l ++ [todo])%list /\ In todo todos.
Proof.
  intros fs l req rnd t Hs Ha Ht Hne todo.
  destruct (post_body_creates fs l rnd req (JStr t) Hs Ht (text_of_string_truthy _ Hne))
    as (fs0 & Hpost & _).
  eexists. split.
  - rewrite (index_post_is_part000 _ _ Ha). exact Hpost.
  - intros req' Ha'. exists (l ++ [todo])%list. split; [|split; [reflexivity|]].
    + rewrite (index_get_is_part000 _ Ha'). apply get_holds, holds_write.
    + apply in_or_app. right. now left.
Qed.

(** *** DELETE *)

Lemma filter_typed id ts :
  array_filter (Part000.id_differs id) (map Todo.to_json ts) =
  Normal (map Todo.to_json (filter (id_is_not id) ts)).
Proof.
  induction ts as [|x ts IH]; [reflexivity|].
  cbn [map array_filter filter]. rewrite IH.
  change (Part000.id_differs id (Todo.to_json x)) with (Normal (A:=bool) (id_is_not id x)).
  destruct (id_is_not id x); reflexivity.
Qed.

Lemma filter_length_le {A} (f : A -> bool) l : length (filter f l) <= length l.
Proof. induction l as [|x l IH]; simpl; [lia|]. destruct (f x); simpl; lia. Qed.

Lemma filter_length_same {A} (f : A -> bool) l :
  length (filter f l) = length l <-> forall x, In x l -> f x = true.
Proof.
  induction l as [|x l IH]; simpl.
  - split; [intros _ y []|reflexivity].
  - destruct (f x) eqn:E; simpl.
    + split.
      * intros H y [<-|Hy]; [exact E|]. apply IH; [lia|exact Hy].
      * intros H. f_equal. apply IH. intros y Hy. apply H. now right.
    + split.
      * intros H. pose proof (filter_length_le f l). lia.
      * intros H. specialize (H x (or_introl eq_refl)). congruence.
Qed.

Lemma id_absent_iff id ts :
  ~ In id (map Todo.id ts) <-> forall x, In x ts -> id_is_not id x = true.
Proof.
  unfold id_is_not. split.
  - intros H x Hx. apply negb_true_iff, String.eqb_neq. intros E. apply H.
    apply in_map_iff. exists x. auto.
  - intros H Hin. apply in_map_iff in Hin as (x & E & Hx).
    specialize (H x Hx). apply negb_true_iff, String.eqb_neq in H. congruence.
Qed.

Lemma delete_holds fs l l' req :
  holds fs TODOS_FILE (JArr l) ->
  array_filter (Part000.id_differs (params_id req)) l = Normal l' ->
  Part000.delete_todo req fs =
    if (length l' =? length l)%nat
    then (Normal (mkResponse 404 (Some (message "Todo not found"))), fs)
    else (Normal (mkResponse 204 None),
          set_file fs TODOS_FILE (JSON_stringify (JArr l'))).
Proof.
  intros H Hf. unfold Part000.delete_todo, bind, lift.
  rewrite Part000_readTodos_eq, (holds_read _ _ _ H), Hf.
  destruct (length l' =? length l)%nat; reflexivity.
Qed.

(** C2.  On a file that holds a list of todos, an authorized DELETE
    /todos/:id with an id that no todo has answers 404 and writes nothing;
    with an id that some todo has it answers 204. *)
Theorem delete_answers_404_or_204 :
  forall fs ts req,
    authorized req ->
    holds fs TODOS_FILE (JArr (map Todo.to_json ts)) ->
    (~ In (params_id req) (map Todo.id ts) ->
     Index.delete_todo req fs =
       (Normal (mkResponse 404 (Some (message "Todo not found"))), fs)) /\
    (In (params_id req) (map Todo.id ts) ->
     exists fs',
       Index.delete_todo req fs = (Normal (mkResponse 204 None), fs')).
Proof.
  intros fs ts req Ha Hh.
  rewrite (index_delete_is_part000 _ Ha).
  rewrite (delete_holds _ _ _ _ Hh (filter_typed _ _)).
  rewrite !length_map.
  destruct (Nat.eqb_spec (length (filter (id_is_not (params_id req)) ts)) (length ts)) as [E|E].
  - pose proof (proj2 (id_absent_iff _ _) (proj1 (filter_length_same _ _) E)) as Hn.
    split; [reflexivity|contradiction].
  - split; [|eauto].
    intros Hn. exfalso. apply E.
    apply (proj2 (filter_length_same _ _)), (proj1 (id_absent_iff _ _)), Hn.
Qed.

(** C9.  In both programs a DELETE that answers 204 has written the
    stored list filtered by id mismatch: every todo with the given id is
    gone, the others stay as they were, in order.  A DELETE of an id that
    occurs in the list is such a DELETE. *)
Theorem delete_removes_every_match :
  forall fs ts req,
    holds fs TODOS_FILE (JArr (map Todo.to_json ts)) ->
    let rest := filter (fun x => negb (Todo.id x =? params_id req)) ts in
    let fs_rest :=
      set_file fs TODOS_FILE (JSON_stringify (JArr (map Todo.to_json rest))) in
    holds fs_rest TODOS_FILE (JArr (map Todo.to_json rest)) /\
    (forall r fs',
        Part000.delete_todo req fs = (Normal r, fs') \/
        Index.delete_todo req fs = (Normal r, fs') ->
        status r = 204 -> fs' = fs_rest) /\
    (In (params_id req) (map Todo.id ts) ->
     Part000.delete_todo req fs = (Normal (mkResponse 204 None), fs_rest) /\
     (authorized req ->
      Index.delete_todo req fs = (Normal (mkResponse 204 None), fs_rest))).
Proof.
  intros fs ts req Hh rest fs_rest.
  pose proof (delete_holds _ _ _ req Hh (filter_typed _ _)) as Hd.
  rewrite !length_map in Hd.
  fold (id_is_not (params_id req)) in rest. fold rest fs_rest in Hd.
  assert (H204 : forall r fs',
             Part000.delete_todo req fs = (Normal r, fs') ->
             status r = 204 -> fs' = fs_rest).
  { intros r fs' E Hst. rewrite Hd in E.
    destruct (length rest =? length ts)%nat; injection E as <- <-;
      [discriminate Hst|reflexivity]. }
  split; [exact (holds_write fs TODOS_FILE (JArr (map Todo.to_json rest)))|].
  split.
  - intros r fs' [E|E] Hst; [exact (H204 r fs' E Hst)|].
    unfold Index.delete_todo in E.
    destruct (auth_cases req) as [Ha|(m & Ha)]; rewrite Ha in E.
    + exact (H204 r fs' E Hst).
    + injection E as <- <-. discriminate Hst.
  - intros Hin.
    assert (H0 : Part000.delete_todo req fs =
                 (Normal (mkResponse 204 None), fs_rest)).
    { rewrite Hd. destruct (Nat.eqb_spec (length rest) (length ts)) as [E|E];
        [|reflexivity].
      exfalso.
      exact (proj2 (id_absent_iff _ _) (proj1 (filter_length_same _ _) E) Hin). }
    split; [exact H0|].
    intros Ha. rewrite (index_delete_is_part000 _ Ha). exact H0.
Qed.

(** *** Accounts *)

Lemma find_username_typed u us :
  array_find (Index.same_username (Some (JStr u))) (map User.to_json us) =
  Normal (option_map User.to_json (find (has_username u) us)).
Proof.
  induction us as [|x us IH]; [reflexivity|].
  cbn [map array_find find].
  change (Index.same_username (Some (JStr u)) (User.to_json x))
    with (Normal (A:=bool) (has_username u x)).
  destruct (has_username u x); [reflexivity|exact IH].
Qed.

Lemma find_credentials_typed u p us :
  array_find (Index.same_credentials (Some (JStr u)) (Some (JStr p)))
             (map User.to_json us) =
  Normal (option_map User.to_json (find (has_credentials u p) us)).
Proof.
  induction us as [|x us IH]; [reflexivity|].
  cbn [map array_find find].
  assert (E : Index.same_credentials (Some (JStr u)) (Some (JStr p)) (User.to_json x)
              = Normal (has_credentials u p x)).
  { unfold Index.same_credentials, has_credentials. cbn.
    destruct (User.username x =? u); reflexivity. }
  rewrite E. destruct (has_credentials u p x); [reflexivity|exact IH].
Qed.

Lemma find_username_none u us :
  find (has_username u) us = None <-> ~ In u (map User.username us).
Proof.
  split.
  - intros H Hin. apply in_map_iff in Hin as (x & E & Hx).
    pose proof (find_none _ _ H x Hx) as Hf. unfold has_username in Hf.
    apply String.eqb_neq in Hf. congruence.
  - intros H. destruct (find (has_username u) us) as [x|] eqn:E; [|reflexivity].
    apply find_some in E as [Hx Hu]. apply String.eqb_eq in Hu.
    exfalso. apply H, in_map_iff. eauto.
Qed.

Lemma truthy_user o : truthy (option_map User.to_json o) = match o with Some _ => true | None => false end.
Proof. destruct o; reflexivity. Qed.

Lemma falsy_string (o : option string) :
  truthy (option_map JStr o) = false <-> o = None \/ o = Some "".
Proof.
  destruct o as [s|]; simpl.
  - rewrite negb_false_iff, String.eqb_eq. split; [intros ->; auto|intros [H|H]; congruence].
  - split; auto.
Qed.

Lemma signup_rejects_falsy rnd req username password fs :
  get_prop (Some (body req)) "username" = Normal username ->
  get_prop (Some (body req)) "password" = Normal password ->
  truthy username = false \/ truthy password = false ->
  Index.signup rnd req fs =
    (Normal (mkResponse 400 (Some (message "username and password are required"))), fs).
Proof.
  intros Hu Hp H. unfold Index.signup, bind, lift. rewrite Hu, Hp.
  destruct H as [-> | ->]; [reflexivity|]. rewrite orb_true_r. reflexivity.
Qed.

Lemma login_rejects_falsy req username password fs :
  get_prop (Some (body req)) "username" = Normal username ->
  get_prop (Some (body req)) "password" = Normal password ->
  truthy username = false \/ truthy password = false ->
  Index.login req fs =
    (Normal (mkResponse 400 (Some (message "username and password are required"))), fs).
Proof.
  intros Hu Hp H. unfold Index.login, bind, lift. rewrite Hu, Hp.
  destruct H as [-> | ->]; [reflexivity|]. rewrite orb_true_r. reflexivity.
Qed.

Lemma signup_valid fs us rnd req u p :
  stored fs USERS_FILE (map User.to_json us) ->
  get_prop (Some (body req)) "username" = Normal (Some (JStr u)) ->
  get_prop (Some (body req)) "password" = Normal (Some (JStr p)) ->
  u <> "" -> p <> "" ->
  exists fs0,
    (fs0 = fs \/ us = [] /\ fs0 = set_file fs USERS_FILE "[]") /\
    Index.signup rnd req fs =
      match find (has_username u) us with
      | Some _ =>
          (Normal (mkResponse 409 (Some (message "username already exists"))), fs0)
      | None =>
          (Normal (mkResponse 201 (Some (signed_in
             (jwt_sign [("sub", Some (JStr rnd)); ("username", Some (JStr u))]
                       Index.JWT_SECRET) u))),
           set_file fs0 USERS_FILE
             (JSON_stringify (JArr (map User.to_json (us ++ [User.mk rnd u p])))))
      end.
Proof.
  intros Hs Hu Hp Hune Hpne.
  destruct (stored_read _ _ _ Hs) as (fs0 & Hr & _ & Hfs0).
  exists fs0. split.
  { destruct Hfs0 as [|[E ?]]; [auto|right]. split; [|assumption].
    destruct us; [reflexivity|discriminate]. }
  unfold Index.signup, bind, lift. rewrite Hu, Hp.
  rewrite !text_of_string_truthy by assumption. cbn [negb orb].
  rewrite Index_readUsers_eq, Hr. cbn [Index.find_in].
  rewrite find_username_typed, truthy_user.
  destruct (find (has_username u) us); [reflexivity|].
  rewrite map_app. reflexivity.
Qed.

Lemma string_cases (o : option string) :
  truthy (option_map JStr o) = false \/ exists s, o = Some s /\ s <> "".
Proof.
  destruct o as [s|]; [|left; reflexivity].
  destruct (String.eqb_spec s "") as [->|H]; [left; reflexivity|right; eauto].
Qed.

Lemma signup_cases fs us req rnd u p :
  stored fs USERS_FILE (map User.to_json us) ->
  get_prop (Some (body req)) "username" = Normal (option_map JStr u) ->
  get_prop (Some (body req)) "password" = Normal (option_map JStr p) ->
  signup_result fs us rnd u p (Index.signup rnd req fs).
Proof.
  intros Hs Hu Hp.
  destruct (string_cases u) as [Fu|(name & -> & Hn)].
  { rewrite (signup_rejects_falsy _ _ _ _ _ Hu Hp (or_introl Fu)). constructor; auto. }
  destruct (string_cases p) as [Fp|(pw & -> & Hw)].
  { rewrite (signup_rejects_falsy _ _ _ _ _ Hu Hp (or_intror Fp)). constructor; auto. }
  destruct (signup_valid fs us rnd req name pw Hs Hu Hp Hn Hw) as (fs0 & Hfs0 & E).
  rewrite E. destruct (find (has_username name) us) as [x|] eqn:Ef.
  - assert (Hin : In name (map User.username us)).
    { apply find_some in Ef as [Hx Hx']. apply String.eqb_eq in Hx'.
      apply in_map_iff. eauto. }
    destruct Hfs0 as [->|[-> _]]; [|destruct Hin].
    eapply signup_taken; eauto.
  - eapply signup_created; eauto.
    + now apply find_username_none.
    + apply stored_write.
    + destruct Hfs0 as [->|[_ ->]]; reflexivity.
Qed.

(** C3, as amended.  A signup whose username is already stored is
    refused (409, or 400 when the password is missing or empty) and
    writes nothing; a signup with a fresh non-empty username and a
    non-empty password answers 201 with [{token, username}] and appends the
    user; so distinct stored usernames stay distinct after every signup. *)
Theorem signup_keeps_usernames_distinct :
  forall fs us req rnd (u p : option string),
    stored fs USERS_FILE (map User.to_json us) ->
    get_prop (Some (body req)) "username" = Normal (option_map JStr u) ->
    get_prop (Some (body req)) "password" = Normal (option_map JStr p) ->
    (forall name,
        u = Some name -> In name (map User.username us) ->
        exists r,
          Index.signup rnd req fs = (Normal r, fs) /\
          (status r = 409 \/ status r = 400)) /\
    (forall name pw,
        u = Some name -> p = Some pw -> name <> "" -> pw <> "" ->
        ~ In name (map User.username us) ->
        exists fs',
          Index.signup rnd req fs =
            (Normal (mkResponse 201 (Some (signed_in
               (jwt_sign [("sub", Some (JStr rnd)); ("username", Some (JStr name))]
                         Index.JWT_SECRET) name))), fs') /\
          stored fs' USERS_FILE (map User.to_json (us ++ [User.mk rnd name pw]))) /\
    (NoDup (map User.username us) ->
     exists o fs' us',
       Index.signup rnd req fs = (o, fs') /\
       stored fs' USERS_FILE (map User.to_json us') /\
       NoDup (map User.username us')).
Proof.
  intros fs us req rnd u p Hs Hu Hp.
  pose proof (signup_cases fs us req rnd u p Hs Hu Hp) as Hc.
  repeat split.
  - intros name -> Hin. inversion Hc as [F E| name' pw E1 E2 Hn Hw Hin' E | name' pw fs' E1 E2 Hn Hw Hnin Hst Htd E].
    + eexists; split; [reflexivity|right; reflexivity].
    + eexists; split; [reflexivity|left; reflexivity].
    + injection E1 as <-. contradiction.
  - intros name pw -> -> Hn Hw Hnin.
    inversion Hc as [F E| name' pw' E1 E2 Hn' Hw' Hin' E | name' pw' fs' E1 E2 Hn' Hw' Hnin' Hst Htd E].
    + exfalso. destruct F as [F|F]; apply falsy_string in F as [F|F]; congruence.
    + injection E1 as <-. contradiction.
    + injection E1 as <-. injection E2 as <-. eexists; split; [reflexivity|exact Hst].
  - intros Hnd.
    inversion Hc as [F E| name' pw E1 E2 Hn Hw Hin' E | name' pw fs' E1 E2 Hn Hw Hnin Hst Htd E].
    + exists (Normal (mkResponse 400 (Some (message "username and password are required")))), fs, us. auto.
    + exists (Normal (mkResponse 409 (Some (message "username already exists")))), fs, us. auto.
    + eexists _, fs', _. split; [reflexivity|]. split; [exact Hst|].
      rewrite map_app. cbn [map User.username].
      apply NoDup_app; [exact Hnd|repeat constructor; auto|].
      intros y Hy [<-|[]]. contradiction.
Qed.

Lemma has_credentials_iff u p x : has_credentials u p x = true <-> matches u p x.
Proof.
  unfold has_credentials, matches.
  rewrite andb_true_iff, !String.eqb_eq. reflexivity.
Qed.

Lemma login_valid fs us req u p :
  stored fs USERS_FILE (map User.to_json us) ->
  get_prop (Some (body req)) "username" = Normal (Some (JStr u)) ->
  get_prop (Some (body req)) "password" = Normal (Some (JStr p)) ->
  u <> "" -> p <> "" ->
  exists fs',
    stored fs' USERS_FILE (map User.to_json us) /\
    file fs' TODOS_FILE = file fs TODOS_FILE /\
    Index.login req fs =
      (Normal
         match find (has_credentials u p) us with
         | Some x =>
             mkResponse 200 (Some (signed_in
               (jwt_sign [("sub", Some (JStr (User.id x))); ("username", Some (JStr u))]
                         Index.JWT_SECRET) u))
         | None => mkResponse 401 (Some (message "invalid credentials"))
         end, fs').
Proof.
  intros Hs Hu Hp Hune Hpne.
  destruct (stored_read _ _ _ Hs) as (fs0 & Hr & Hs0 & Hfs0).
  exists fs0. split; [exact Hs0|]. split.
  { destruct Hfs0 as [->|[_ ->]]; reflexivity. }
  unfold Index.login, bind, lift. rewrite Hu, Hp.
  rewrite !text_of_string_truthy by assumption. cbn [negb orb].
  rewrite Index_readUsers_eq, Hr. cbn [Index.find_in].
  rewrite find_credentials_typed, truthy_user.
  destruct (find (has_credentials u p) us); reflexivity.
Qed.

(** C4, as amended.  A login with a non-empty username [u] and a
    non-empty password [p] answers 200 with [{token, username}] exactly
    when some stored user has username [u] and password [p]; otherwise it
    answers 401 with "invalid credentials".  The users list is the same
    afterwards. *)
Theorem login_accepts_stored_credentials_only :
  forall fs us req u p,
    stored fs USERS_FILE (map User.to_json us) ->
    get_prop (Some (body req)) "username" = Normal (Some (JStr u)) ->
    get_prop (Some (body req)) "password" = Normal (Some (JStr p)) ->
    u <> "" -> p <> "" ->
    exists r fs',
      Index.login req fs = (Normal r, fs') /\
      stored fs' USERS_FILE (map User.to_json us) /\
      (status r = 200 <-> exists x, In x us /\ matches u p x) /\
      (status r = 200 ->
       exists x,
         In x us /\ matches u p x /\
         payload r = Some (signed_in
           (jwt_sign [("sub", Some (JStr (User.id x))); ("username", Some (JStr u))]
                     Index.JWT_SECRET) u)) /\
      (status r <> 200 ->
       r = mkResponse 401 (Some (message "invalid credentials"))).
Proof.
  intros fs us req u p Hs Hu Hp Hune Hpne.
  destruct (login_valid fs us req u p Hs Hu Hp Hune Hpne) as (fs' & Hs' & _ & E).
  eexists _, fs'. split; [exact E|]. split; [exact Hs'|].
  destruct (find (has_credentials u p) us) as [x|] eqn:Ef.
  - apply find_some in Ef as [Hx Hm]. apply has_credentials_iff in Hm.
    cbn [status payload]. repeat split; eauto. congruence.
  - cbn [status payload]. repeat split; try discriminate.
    intros (x & Hx & Hm). apply has_credentials_iff in Hm.
    pose proof (find_none _ _ Ef x Hx). congruence.
Qed.

(** *** Requests without a valid token *)

(** C5, as amended.  In [index.js], a request to GET /todos, POST
    /todos or DELETE /todos/:id whose Authorization header is absent, does
    not start with "Bearer ", or carries a token that [jwt.verify] refuses,
    is answered 401 and no file changes. *)
Theorem index_routes_reject_unauthorized :
  forall req rnd fs,
    unauthorized req ->
    exists m,
      Index.get_todos req fs = (Normal (mkResponse 401 (Some (message m))), fs) /\
      Index.post_todos rnd req fs = (Normal (mkResponse 401 (Some (message m))), fs) /\
      Index.delete_todo req fs = (Normal (mkResponse 401 (Some (message m))), fs).
Proof.
  intros req rnd fs H.
  unfold Index.get_todos, Index.post_todos, Index.delete_todo.
  destruct (auth_rejects req H) as (m & Hm). exists m.
  rewrite !Hm. auto.
Qed.

(** *** Validation *)

(** C6.  POST /todos with a missing or empty text (once past [auth] in
    [index.js]), and signup or login with a missing username or password,
    answer 400 and leave both files as they were. *)
Theorem invalid_requests_get_400 :
  forall req rnd fs fields,
    body req = JObj fields ->
    ((assoc "text" fields = None \/ assoc "text" fields = Some (JStr "")) ->
     Part000.post_todos rnd req fs =
       (Normal (mkResponse 400 (Some (message "Todo text is required"))), fs) /\
     (authorized req ->
      Index.post_todos rnd req fs =
        (Normal (mkResponse 400 (Some (message "Todo text is required"))), fs))) /\
    ((assoc "username" fields = None \/ assoc "password" fields = None) ->
     Index.signup rnd req fs =
       (Normal (mkResponse 400
          (Some (message "username and password are required"))), fs) /\
     Index.login req fs =
       (Normal (mkResponse 400
          (Some (message "username and password are required"))), fs)).
Proof.
  intros req rnd fs fields Hb. split.
  - intros Ht.
    assert (H0 : Part000.post_todos rnd req fs =
       (Normal (mkResponse 400 (Some (message "Todo text is required"))), fs)).
    { unfold Part000.post_todos, bind, lift. rewrite Hb. cbn [get_prop].
      destruct Ht as [-> | ->]; reflexivity. }
    split; [exact H0|].
    intros Ha. rewrite (index_post_is_part000 _ _ Ha). exact H0.
  - intros Hm.
    assert (F : truthy (assoc "username" fields) = false \/
                truthy (assoc "password" fields) = false).
    { destruct Hm as [-> | ->]; auto. }
    split; [apply (signup_rejects_falsy rnd req _ _ fs) with (3 := F)
           | apply (login_rejects_falsy req _ _ fs) with (3 := F)];
      rewrite Hb; reflexivity.
Qed.

(** *** The two programs agree *)

(** C10.  For an authorized request the three todo handlers of
    [index.js] give the same response and the same files as those of the
    program without accounts, from every state and for the same random
    identifier. *)
Theorem index_refines_part000 :
  forall req rnd,
    authorized req ->
    forall fs,
      Index.get_todos req fs = Part000.get_todos req fs /\
      Index.post_todos rnd req fs = Part000.post_todos rnd req fs /\
      Index.delete_todo req fs = Part000.delete_todo req fs.
Proof.
  intros req rnd Ha fs.
  rewrite (index_get_is_part000 _ Ha), (index_post_is_part000 _ _ Ha),
    (index_delete_is_part000 _ Ha).
  auto.
Qed.

(** *** Frame: which file a computation can write *)

Lemma writes_only_ret {A} p (a : A) : writes_only p (ret a).
Proof. intros fs o fs' E q _. injection E as _ <-. reflexivity. Qed.

Lemma writes_only_throw {A} p e : writes_only p (throw (A:=A) e).
Proof. intros fs o fs' E q _. injection E as _ <-. reflexivity. Qed.

Lemma writes_only_lift {A} p (o : outcome A) : writes_only p (lift o).
Proof. intros fs o' fs' E q _. injection E as _ <-. reflexivity. Qed.

Lemma writes_only_respond p st b : writes_only p (respond st b).
Proof. apply writes_only_ret. Qed.

Lemma writes_only_exists p q : writes_only p (existsSync q).
Proof. intros fs o fs' E r _. injection E as _ <-. reflexivity. Qed.

Lemma writes_only_read p q : writes_only p (readFileSync q).
Proof.
  intros fs o fs' E r _. unfold readFileSync in E.
  destruct (file fs q); injection E as _ <-; reflexivity.
Qed.

Lemma writes_only_write p d : writes_only p (writeFileSync p d).
Proof. intros fs o fs' E q Hq. injection E as _ <-. now apply file_set_other. Qed.

Lemma writes_only_bind {A B} p (m : M A) (k : A -> M B) :
  writes_only p m -> (forall a, writes_only p (k a)) -> writes_only p (bind m k).
Proof.
  intros Hm Hk fs o fs' E q Hq. unfold bind in E.
  destruct (m fs) as [[a|e] fs1] eqn:E1.
  - rewrite (Hk a _ _ _ E q Hq). exact (Hm _ _ _ E1 q Hq).
  - injection E as _ <-. exact (Hm _ _ _ E1 q Hq).
Qed.

Lemma writes_only_try {A} p (m : M A) (h : exn -> M A) :
  writes_only p m -> (forall e, writes_only p (h e)) -> writes_only p (try_catch m h).
Proof.
  intros Hm Hh fs o fs' E q Hq. unfold try_catch in E.
  destruct (m fs) as [[a|e] fs1] eqn:E1.
  - injection E as _ <-. exact (Hm _ _ _ E1 q Hq).
  - rewrite (Hh e _ _ _ E q Hq). exact (Hm _ _ _ E1 q Hq).
Qed.

Lemma writes_only_if {A} p (b : bool) (m1 m2 : M A) :
  writes_only p m1 -> writes_only p m2 -> writes_only p (if b then m1 else m2).
Proof. destruct b; auto. Qed.

Create HintDb frame.
#[local] Hint Resolve
  writes_only_ret writes_only_throw writes_only_lift writes_only_respond
  writes_only_exists writes_only_read writes_only_write : frame.

Ltac frame :=
  repeat first
    [ apply writes_only_bind; [|intros ?]
    | apply writes_only_try; [|intros ?]
    | apply writes_only_if
    | solve [auto with frame] ].

Lemma read_store_writes_only p : writes_only p (read_store p).
Proof. unfold read_store. frame. Qed.

Lemma signup_writes_only rnd req : writes_only USERS_FILE (Index.signup rnd req).
Proof.
  unfold Index.signup, Index.writeUsers. rewrite Index_readUsers_eq.
  pose proof (read_store_writes_only USERS_FILE). frame.
Qed.

Lemma login_writes_only req : writes_only USERS_FILE (Index.login req).
Proof.
  unfold Index.login. rewrite Index_readUsers_eq.
  pose proof (read_store_writes_only USERS_FILE). frame.
Qed.

Lemma stored_same_file fs fs' p l :
  file fs' p = file fs p -> stored fs p l -> stored fs' p l.
Proof.
  intros E [H | data H Hb | data e H Hb He | data l' H Hb Hp]; rewrite <- E in H.
  - now apply stored_absent.
  - eapply stored_blank; eauto.
  - eapply stored_corrupt; eauto.
  - eapply stored_array; eauto.
Qed.

(** *** Todos are appended and removed, never changed *)

Lemma post_effect fs l rnd req o fs' :
  stored fs TODOS_FILE l ->
  Part000.post_todos rnd req fs = (o, fs') ->
  (stored fs' TODOS_FILE l /\ forall r, o = Normal r -> status r = 400) \/
  (exists text,
      o = Normal (mkResponse 201 (Some (created rnd text))) /\
      stored fs' TODOS_FILE (l ++ [created rnd text])).
Proof.
  intros Hs E.
  destruct (get_prop (Some (body req)) "text") as [[text|]|e] eqn:Ht.
  - destruct (truthy (Some text)) eqn:Htr.
    + destruct (post_body_creates fs l rnd req text Hs Ht Htr) as (fs0 & E' & _).
      rewrite E' in E. injection E as <- <-. right. exists text. split; [reflexivity|].
      exact (stored_write fs0 TODOS_FILE _).
    + unfold Part000.post_todos, bind, lift in E. rewrite Ht, Htr in E.
      injection E as <- <-. left. split; [exact Hs|]. now intros r [= <-].
  - unfold Part000.post_todos, bind, lift in E. rewrite Ht in E.
    injection E as <- <-. left. split; [exact Hs|]. now intros r [= <-].
  - unfold Part000.post_todos, bind, lift in E. rewrite Ht in E.
    injection E as <- <-. left. split; [exact Hs|]. discriminate.
Qed.

Lemma array_filter_total cb l l' :
  array_filter cb l = Normal l' ->
  l' = filter (fun x => match cb x with Normal b => b | Throw _ => true end) l.
Proof.
  revert l'. induction l as [|x l IH]; intros l' E; cbn in E |- *.
  - now injection E as <-.
  - destruct (cb x) as [b|e]; [|discriminate].
    destruct (array_filter cb l) as [l0|e]; [|discriminate].
    injection E as <-. rewrite (IH l0 eq_refl). reflexivity.
Qed.

Lemma delete_effect fs l req o fs' :
  stored fs TODOS_FILE l ->
  Part000.delete_todo req fs = (o, fs') ->
  (stored fs' TODOS_FILE l /\ forall r, o = Normal r -> status r = 404) \/
  (o = Normal (mkResponse 204 None) /\
   stored fs' TODOS_FILE (filter (keeps (params_id req)) l)).
Proof.
  intros Hs E.
  destruct (stored_read _ _ _ Hs) as (fs0 & Hr & Hs0 & _).
  unfold Part000.delete_todo, bind, lift in E.
  rewrite Part000_readTodos_eq, Hr in E.
  destruct (array_filter (Part000.id_differs (params_id req)) l) as [l'|e] eqn:Ef.
  - destruct (length l' =? length l)%nat.
    + injection E as <- <-. left. split; [exact Hs0|]. now intros r [= <-].
    + injection E as <- <-. right. split; [reflexivity|].
      rewrite (array_filter_total _ _ _ Ef). exact (stored_write fs0 TODOS_FILE _).
  - injection E as <- <-. left. split; [exact Hs0|]. discriminate.
Qed.

Lemma get_effect fs l req o fs' :
  stored fs TODOS_FILE l ->
  Part000.get_todos req fs = (o, fs') ->
  stored fs' TODOS_FILE l /\ o = Normal (mkResponse 200 (Some (JArr l))).
Proof.
  intros Hs E.
  destruct (stored_read _ _ _ Hs) as (fs0 & Hr & Hs0 & _).
  unfold Part000.get_todos, bind in E. rewrite Part000_readTodos_eq, Hr in E.
  injection E as <- <-. auto.
Qed.

(** C8.  A POST /todos that answers 201 appends one todo with
    [completed: false] at the end of the stored list.  After any request
    to any route the stored list is the old list, or the old list with
    such a todo appended, or the old list without the todos of the
    deleted id: stored todos are never changed and never reordered. *)
Theorem todos_appended_never_updated :
  forall fs l,
    stored fs TODOS_FILE l ->
    (forall rnd req resp fs',
        Index.post_todos rnd req fs = (Normal resp, fs') ->
        status resp = 201 ->
        exists text,
          payload resp = Some (created rnd text) /\
          stored fs' TODOS_FILE (l ++ [created rnd text])) /\
    (forall r rnd req o fs',
        Index.serve r rnd req fs = (o, fs') ->
        exists l',
          stored fs' TODOS_FILE l' /\
          (l' = l \/
           (exists text, l' = (l ++ [created rnd text])%list) \/
           l' = filter (keeps (params_id req)) l)).
Proof.
  intros fs l Hs. split.
  - intros rnd req resp fs' E Hst. unfold Index.post_todos in E.
    destruct (auth_cases req) as [Ha|(m & Ha)]; rewrite Ha in E.
    + destruct (post_effect _ _ _ _ _ _ Hs E) as [[_ H4]|(text & Ho & Hs')].
      * specialize (H4 resp eq_refl). congruence.
      * injection Ho as ->. exists text. split; [reflexivity|exact Hs'].
    + injection E as <- <-. discriminate.
  - intros r rnd req o fs' E.
    assert (Hframe : forall m : M Response,
               writes_only USERS_FILE m -> m fs = (o, fs') ->
               exists l', stored fs' TODOS_FILE l' /\
                 (l' = l \/ (exists text, l' = (l ++ [created rnd text])%list) \/
                  l' = filter (keeps (params_id req)) l)).
    { intros m Hm Em. exists l. split; [|auto].
      apply (stored_same_file fs); [|exact Hs].
      apply (Hm _ _ _ Em). discriminate. }
    destruct r; cbn [Index.serve] in E.
    + exact (Hframe _ (signup_writes_only rnd req) E).
    + exact (Hframe _ (login_writes_only req) E).
    + unfold Index.get_todos in E.
      destruct (auth_cases req) as [Ha|(m & Ha)]; rewrite Ha in E.
      * destruct (get_effect _ _ req _ _ Hs E) as [Hs' _]. eauto.
      * injection E as <- <-. eauto.
    + unfold Index.post_todos in E.
      destruct (auth_cases req) as [Ha|(m & Ha)]; rewrite Ha in E.
      * destruct (post_effect _ _ _ _ _ _ Hs E) as [[Hs' _]|(text & _ & Hs')]; eauto 6.
      * injection E as <- <-. eauto.
    + unfold Index.delete_todo in E.
      destruct (auth_cases req) as [Ha|(m & Ha)]; rewrite Ha in E.
      * destruct (delete_effect _ _ _ _ _ Hs E) as [[Hs' _]|[_ Hs']]; eauto 6.
      * injection E as <- <-. eauto.
Qed.

End Facts.

(** ** The reference platform keeps the laws *)

Section ReferenceLaws.
Import Reference.

Lemma rev_string_empty acc s : rev_string acc s = "" -> acc = "" /\ s = "".
Proof.
  revert acc. induction s as [|c s IH]; intros acc H; [auto|].
  apply IH in H as [H _]. discriminate.
Qed.

Lemma all_space_rev acc s :
  all_space (rev_string acc s) = all_space acc && all_space s.
Proof.
  revert acc. induction s as [|c s IH]; intros acc; cbn [rev_string all_space].
  - now rewrite andb_true_r.
  - rewrite IH. cbn [all_space]. destruct (is_space c), (all_space acc); reflexivity.
Qed.

Lemma trimStart_all_space s : all_space (trimStart s) = all_space s.
Proof.
  induction s as [|c s IH]; [reflexivity|]. cbn [trimStart].
  destruct (is_space c) eqn:E; [|reflexivity]. cbn [all_space]. now rewrite E.
Qed.

Lemma trim_empty_all_space s : trim s = "" -> all_space s = true.
Proof.
  unfold trim. intros H. apply rev_string_empty in H as [_ H].
  assert (A : all_space (trimStart (rev_string "" (trimStart s))) = true) by now rewrite H.
  rewrite trimStart_all_space, all_space_rev, trimStart_all_space in A. exact A.
Qed.

Lemma parse_value_stray f c r :
  is_space c = true -> is_ws c = false -> parse_value f (c :: r) = None.
Proof.
  destruct f as [|f]; [reflexivity|].
  destruct c as [[] [] [] [] [] [] [] []]; try discriminate; reflexivity.
Qed.

Lemma parse_value_all_space f s :
  all_space s = true -> parse_value f (list_ascii_of_string s) = None.
Proof.
  induction s as [|c s IH]; cbn [all_space list_ascii_of_string]; intros H.
  - destruct f; reflexivity.
  - apply andb_true_iff in H as [Hc Hs]. destruct (is_ws c) eqn:E.
    + specialize (IH Hs). destruct f as [|f]; [reflexivity|].
      cbn [parse_value skip_ws] in *. rewrite E. exact IH.
    + now apply parse_value_stray.
Qed.

Lemma reference_parse_nonblank data v : parse data = Normal v -> trim data <> "".
Proof.
  intros H E. apply trim_empty_all_space in E.
  unfold parse in H. rewrite (parse_value_all_space _ _ E) in H. discriminate.
Qed.

Lemma reference_laws : JsonLaws Reference.platform.
Proof.
  split.
  - exact reference_parse_stringify.
  - reflexivity.
  - exact reference_parse_nonblank.
Qed.

End ReferenceLaws.

(** ** The handlers on concrete requests *)

Lemma bearer_authorized b id : authorized (P := Reference.platform) (bearer b id).
Proof.
  exists ann_token,
    (JObj [("sub", JStr "k3v9x1a"); ("username", JStr "ann")]).
  split; [reflexivity|]. split; [discriminate|]. vm_compute. reflexivity.
Qed.

Lemma busy_holds_todos :
  holds (P := Reference.platform) busy TODOS_FILE (JArr (map Todo.to_json some_todos)).
Proof. eexists. split; [reflexivity|]. vm_compute. reflexivity. Qed.

Lemma busy_stores_todos :
  stored (P := Reference.platform) busy TODOS_FILE (map Todo.to_json some_todos).
Proof.
  eapply stored_array; [reflexivity| |vm_compute; reflexivity].
  vm_compute. discriminate.
Qed.

Lemma busy_stores_users :
  stored (P := Reference.platform) busy USERS_FILE (map User.to_json some_users).
Proof.
  eapply stored_array; [reflexivity| |vm_compute; reflexivity].
  vm_compute. discriminate.
Qed.

Lemma created_todo_round_trips_witness :
  exists fs',
    Index.post_todos (P := Reference.platform) "q1w2e3r"
      (bearer (JObj [("text", JStr "buy milk")]) "") fresh =
    (Normal (mkResponse 201
       (Some (Todo.to_json (Todo.mk "q1w2e3r" "buy milk" false)))), fs') /\
    forall req',
      authorized (P := Reference.platform) req' ->
      exists todos,
        Index.get_todos (P := Reference.platform) req' fs' =
          (Normal (mkResponse 200 (Some (JArr todos))), fs') /\
        todos = [Todo.to_json (Todo.mk "q1w2e3r" "buy milk" false)] /\
        In (Todo.to_json (Todo.mk "q1w2e3r" "buy milk" false)) todos.
Proof.
  apply (@created_todo_round_trips Reference.platform reference_laws fresh []).
  - apply stored_absent. reflexivity.
  - apply bearer_authorized.
  - reflexivity.
  - discriminate.
Defined.

Lemma delete_answers_404_or_204_witness :
  Index.delete_todo (P := Reference.platform) (bearer (JObj []) "zzzzzzz") busy =
    (Normal (mkResponse 404 (Some (message "Todo not found"))), busy) /\
  exists fs',
    Index.delete_todo (P := Reference.platform) (bearer (JObj []) "a1b2c3d") busy =
      (Normal (mkResponse 204 None), fs').
Proof.
  split.
  - apply (proj1 (@delete_answers_404_or_204 Reference.platform reference_laws
                    busy some_todos (bearer (JObj []) "zzzzzzz")
                    (bearer_authorized _ _) busy_holds_todos)).
    cbn. intros [H|[H|[H|[]]]]; discriminate H.
  - apply (proj2 (@delete_answers_404_or_204 Reference.platform reference_laws
                    busy some_todos (bearer (JObj []) "a1b2c3d")
                    (bearer_authorized _ _) busy_holds_todos)).
    cbn. left. reflexivity.
Defined.

Lemma delete_removes_every_match_witness :
  let left_over := [Todo.mk "e4f5g6h" "eggs" false] in
  let fs_rest :=
    set_file busy TODOS_FILE
      (Reference.stringify (JArr (map Todo.to_json left_over))) in
  let req := bearer (JObj []) "a1b2c3d" in
  holds (P := Reference.platform) fs_rest TODOS_FILE
    (JArr (map Todo.to_json left_over)) /\
  Part000.delete_todo (P := Reference.platform) req busy =
    (Normal (mkResponse 204 None), fs_rest) /\
  Index.delete_todo (P := Reference.platform) req busy =
    (Normal (mkResponse 204 None), fs_rest).
Proof.
  destruct (@delete_removes_every_match Reference.platform reference_laws
              busy some_todos (bearer (JObj []) "a1b2c3d") busy_holds_todos)
    as (Hholds & _ & Hin).
  destruct Hin as [Hp Hi]; [cbn; left; reflexivity|].
  split; [exact Hholds|]. split; [exact Hp|].
  apply Hi, bearer_authorized.
Defined.

Lemma signup_keeps_usernames_distinct_witness :
  (exists r,
      Index.signup (P := Reference.platform) "m5n6p7q"
        (anonymous (credentials "ann" "hunter2") "") busy = (Normal r, busy) /\
      (status r = 409 \/ status r = 400)) /\
  (exists o fs' us',
      Index.signup (P := Reference.platform) "m5n6p7q"
        (anonymous (credentials "bob" "hunter2") "") busy = (o, fs') /\
      stored (P := Reference.platform) fs' USERS_FILE (map User.to_json us') /\
      NoDup (map User.username us')).
Proof.
  split.
  - apply (proj1 (@signup_keeps_usernames_distinct Reference.platform reference_laws
                    busy some_users (anonymous (credentials "ann" "hunter2") "")
                    "m5n6p7q" (Some "ann") (Some "hunter2")
                    busy_stores_users eq_refl eq_refl) "ann" eq_refl).
    cbn. left. reflexivity.
  - apply (proj2 (proj2 (@signup_keeps_usernames_distinct Reference.platform reference_laws
                    busy some_users (anonymous (credentials "bob" "hunter2") "")
                    "m5n6p7q" (Some "bob") (Some "hunter2")
                    busy_stores_users eq_refl eq_refl))).
    cbn. repeat constructor. intros [].
Defined.

Lemma login_accepts_stored_credentials_only_witness :
  exists r fs',
    Index.login (P := Reference.platform)
      (anonymous (credentials "ann" "secret") "") busy = (Normal r, fs') /\
    stored (P := Reference.platform) fs' USERS_FILE (map User.to_json some_users) /\
    (status r = 200 <-> exists x, In x some_users /\ matches "ann" "secret" x) /\
    (status r = 200 ->
     exists x,
       In x some_users /\ matches "ann" "secret" x /\
       payload r = Some (signed_in
         (jwt_sign (Platform := Reference.platform)
            [("sub", Some (JStr (User.id x))); ("username", Some (JStr "ann"))]
            (Index.JWT_SECRET (P := Reference.platform))) "ann")) /\
    (status r <> 200 ->
     r = mkResponse 401 (Some (message "invalid credentials"))).
Proof.
  apply (@login_accepts_stored_credentials_only Reference.platform reference_laws
           busy some_users (anonymous (credentials "ann" "secret") "")
           "ann" "secret" busy_stores_users eq_refl eq_refl);
    discriminate.
Defined.

Lemma index_routes_reject_unauthorized_witness :
  exists m,
    Index.get_todos (P := Reference.platform) (anonymous (JObj []) "a1b2c3d") busy =
      (Normal (mkResponse 401 (Some (message m))), busy) /\
    Index.post_todos (P := Reference.platform) "q1w2e3r"
      (anonymous (JObj []) "a1b2c3d") busy =
      (Normal (mkResponse 401 (Some (message m))), busy) /\
    Index.delete_todo (P := Reference.platform) (anonymous (JObj []) "a1b2c3d") busy =
      (Normal (mkResponse 401 (Some (message m))), busy).
Proof.
  apply (@index_routes_reject_unauthorized Reference.platform).
  apply header_absent. reflexivity.
Defined.

Lemma invalid_requests_get_400_witness :
  (Part000.post_todos (P := Reference.platform) "q1w2e3r"
     (bearer (JObj [("text", JStr "")]) "") busy =
     (Normal (mkResponse 400 (Some (message "Todo text is required"))), busy) /\
   (authorized (P := Reference.platform) (bearer (JObj [("text", JStr "")]) "") ->
    Index.post_todos (P := Reference.platform) "q1w2e3r"
      (bearer (JObj [("text", JStr "")]) "") busy =
      (Normal (mkResponse 400 (Some (message "Todo text is required"))), busy))) /\
  (Index.signup (P := Reference.platform) "m5n6p7q"
     (anonymous (JObj [("username", JStr "bob")]) "") busy =
     (Normal (mkResponse 400
        (Some (message "username and password are required"))), busy) /\
   Index.login (P := Reference.platform)
     (anonymous (JObj [("username", JStr "bob")]) "") busy =
     (Normal (mkResponse 400
        (Some (message "username and password are required"))), busy)).
Proof.
  split.
  - apply (proj1 (@invalid_requests_get_400 Reference.platform
                    (bearer (JObj [("text", JStr "")]) "") "q1w2e3r" busy
                    [("text", JStr "")] eq_refl)).
    right. reflexivity.
  - apply (proj2 (@invalid_requests_get_400 Reference.platform
                    (anonymous (JObj [("username", JStr "bob")]) "") "m5n6p7q" busy
                    [("username", JStr "bob")] eq_refl)).
    right. reflexivity.
Defined.

Lemma read_resets_corrupt_file_witness :
  Index.readTodos (P := Reference.platform) (mkFiles (Some "{oops") None) =
    (Normal (JArr []), mkFiles (Some "[]") None) /\
  Index.readUsers (P := Reference.platform) (mkFiles None (Some "[1, 2")) =
    (Normal (JArr []), mkFiles None (Some "[]")) /\
  Part000.readTodos (P := Reference.platform) (mkFiles (Some "   ") None) =
    (Normal (JArr []), mkFiles (Some "   ") None).
Proof.
  destruct (@read_resets_corrupt_file Reference.platform) as (Ht & Hu & Hp).
  split; [|split].
  - apply (proj1 (Ht (mkFiles (Some "{oops") None)) "{oops" SyntaxError);
      [reflexivity|discriminate|reflexivity].
  - apply (proj1 (Hu (mkFiles None (Some "[1, 2"))) "[1, 2" SyntaxError);
      [reflexivity|discriminate|reflexivity].
  - apply (proj1 (proj2 (proj2 (Hp (mkFiles (Some "   ") None)))) "   ");
      reflexivity.
Defined.

Lemma todos_appended_never_updated_witness :
  let old := map Todo.to_json some_todos in
  let tea := created "q1w2e3r" (JStr "tea") in
  let posted :=
    set_file busy TODOS_FILE (Reference.stringify (JArr (old ++ [tea]))) in
  let deleted :=
    set_file busy TODOS_FILE
      (Reference.stringify (JArr (filter (keeps "a1b2c3d") old))) in
  (exists text,
      Some tea = Some (created "q1w2e3r" text) /\
      stored (P := Reference.platform) posted TODOS_FILE
        (old ++ [created "q1w2e3r" text])) /\
  (exists l',
      stored (P := Reference.platform) deleted TODOS_FILE l' /\
      (l' = old \/
       (exists text, l' = (old ++ [created "q1w2e3r" text])%list) \/
       l' = filter (keeps "a1b2c3d") old)).
Proof.
  pose proof (@todos_appended_never_updated Reference.platform reference_laws
                busy (map Todo.to_json some_todos) busy_stores_todos)
    as [Hpost Hany].
  split.
  - apply (Hpost "q1w2e3r" (bearer (JObj [("text", JStr "tea")]) "")
                 (mkResponse 201 (Some (created "q1w2e3r" (JStr "tea"))))).
    + vm_compute. reflexivity.
    + reflexivity.
  - apply (Hany Index.DELETE_todos_id "q1w2e3r" (bearer (JObj []) "a1b2c3d")
                (Normal (mkResponse 204 None))).
    vm_compute. reflexivity.
Defined.

Lemma index_refines_part000_witness :
  Index.get_todos (P := Reference.platform) (bearer (JObj []) "a1b2c3d") busy =
    Part000.get_todos (P := Reference.platform) (bearer (JObj []) "a1b2c3d") busy /\
  Index.post_todos (P := Reference.platform) "q1w2e3r"
    (bearer (JObj []) "a1b2c3d") busy =
    Part000.post_todos (P := Reference.platform) "q1w2e3r"
      (bearer (JObj []) "a1b2c3d") busy /\
  Index.delete_todo (P := Reference.platform) (bearer (JObj []) "a1b2c3d") busy =
    Part000.delete_todo (P := Reference.platform) (bearer (JObj []) "a1b2c3d") busy.
Proof.
  apply (@index_refines_part000 Reference.platform).
  apply bearer_authorized.
Defined.

(** *** A file that is JSON but no array

    Such a file stands for no list of todos ([stored] has no case for it):
    [todos.push] is then no function, the handler throws before it writes
    and Express answers 500. *)

Lemma post_on_object_file_throws :
  Index.post_todos (P := Reference.platform) "q1w2e3r"
    (bearer (JObj [("text", JStr "tea")]) "") (mkFiles (Some "{}") None) =
  (Throw TypeError, mkFiles (Some "{}") None).
Proof. vm_compute. reflexivity. Qed.

(** *** A username that is no string

    The data model has usernames as strings and the theorems on accounts
    are stated for strings.  [===] compares arrays and objects by
    reference, so a username that is an array is never found again: the
    same signup is accepted twice. *)

Lemma signup_accepts_an_array_twice :
  let req :=
    anonymous (JObj [("username", JArr [JStr "ann"]); ("password", JStr "pw")]) "" in
  let once := snd (Index.signup (P := Reference.platform) "m5n6p7q" req fresh) in
  exists token fs',
    Index.signup (P := Reference.platform) "r8s9t0u" req once =
      (Normal (mkResponse 201
         (Some (JObj [("token", JStr token); ("username", JArr [JStr "ann"])]))),
       fs') /\
    holds (P := Reference.platform) fs' USERS_FILE
      (JArr [JObj [("id", JStr "m5n6p7q"); ("username", JArr [JStr "ann"]);
                   ("password", JStr "pw")];
             JObj [("id", JStr "r8s9t0u"); ("username", JArr [JStr "ann"]);
                   ("password", JStr "pw")]]).
Proof.
  eexists _, _. split; [vm_compute; reflexivity|].
  eexists. split; [reflexivity|]. vm_compute. reflexivity.
Qed.

(** *** Where three claims fail as they are written *)

(** C3 as written fails: the username [""] is fresh and a password is
    present, yet the signup is answered 400 and nothing is appended. *)
Lemma signup_refuses_empty_username :
  let req := anonymous (credentials "" "hunter2") "" in
  ~ In "" (map User.username some_users) /\
  Index.signup (P := Reference.platform) "m5n6p7q" req busy =
    (Normal (mkResponse 400
       (Some (message "username and password are required"))), busy) /\
  ~ (exists token fs',
        Index.signup (P := Reference.platform) "m5n6p7q" req busy =
          (Normal (mkResponse 201 (Some (signed_in token ""))), fs')).
Proof.
  assert (E : Index.signup (P := Reference.platform) "m5n6p7q"
                (anonymous (credentials "" "hunter2") "") busy =
              (Normal (mkResponse 400
                 (Some (message "username and password are required"))), busy))
    by (vm_compute; reflexivity).
  cbv zeta. split; [|split; [exact E|]].
  - cbn. intros [H|[]]. discriminate H.
  - intros (token & fs' & H). rewrite E in H. discriminate H.
Qed.

(** C4 as written fails: no stored user has the username [""], yet the
    login is answered 400, not 401 with "invalid credentials". *)
Lemma login_answers_400_to_empty_username :
  let req := anonymous (credentials "" "secret") "" in
  (~ exists x, In x some_users /\ matches "" "secret" x) /\
  Index.login (P := Reference.platform) req busy =
    (Normal (mkResponse 400
       (Some (message "username and password are required"))), busy) /\
  fst (Index.login (P := Reference.platform) req busy) <>
    Normal (mkResponse 401 (Some (message "invalid credentials"))).
Proof.
  assert (E : Index.login (P := Reference.platform)
                (anonymous (credentials "" "secret") "") busy =
              (Normal (mkResponse 400
                 (Some (message "username and password are required"))), busy))
    by (vm_compute; reflexivity).
  cbv zeta. split; [|split; [exact E|]].
  - intros (x & [<-|[]] & H & _). discriminate H.
  - rewrite E. discriminate.
Qed.

(** C5 as written fails for the program without accounts: a request
    with no Authorization header is served, not answered 401. *)
Lemma part000_serves_anonymous_requests :
  let req := anonymous (JObj []) "" in
  authorization req = None /\
  Part000.get_todos (P := Reference.platform) req busy =
    (Normal (mkResponse 200 (Some (JArr (map Todo.to_json some_todos)))), busy) /\
  ~ (exists b,
        fst (Part000.get_todos (P := Reference.platform) req busy) =
          Normal (mkResponse 401 b)).
Proof.
  assert (E : Part000.get_todos (P := Reference.platform)
                (anonymous (JObj []) "") busy =
              (Normal (mkResponse 200
                 (Some (JArr (map Todo.to_json some_todos)))), busy))
    by (vm_compute; reflexivity).
  cbv zeta. split; [reflexivity|split; [exact E|]].
  intros (b & H). rewrite E in H. discriminate H.
Qed.

(** * More of the two programs

    Every handler for every request and every content of the files: how
    it can end, what it can write, and how requests follow one another. *)

Section More.
Context {P : Platform}.

(** *** What a read leaves behind *)

(** How a read can end: it found JSON and left the file, or it found a
    blank file and left it, or it wrote the empty array. *)
Lemma read_store_cases fs p :
  exists v fs',
    read_store p fs = (Normal v, fs') /\
    ((fs' = fs /\ (holds fs p v \/ v = JArr [])) \/
     (v = JArr [] /\ fs' = set_file fs p "[]")).
Proof.
  destruct (file fs p) as [data|] eqn:H.
  - destruct (String.eqb_spec (trim data) "") as [Hb|Hb].
    + rewrite (read_store_blank _ _ _ H Hb). eexists _, _. split; [reflexivity|]. auto.
    + destruct (JSON_parse data) as [v|e] eqn:He.
      * rewrite (read_store_parsed _ _ _ _ H Hb He). eexists _, _.
        split; [reflexivity|]. left. split; [reflexivity|]. left. exists data. auto.
      * rewrite (read_store_corrupt _ _ _ _ H Hb He). eexists _, _.
        split; [reflexivity|]. auto.
  - rewrite (read_store_absent _ _ H). eexists _, _. split; [reflexivity|]. auto.
Qed.

(** *** The gate *)

Lemma prefix_split p s :
  prefix p s = true ->
  s = p ++ substring (String.length p) (String.length s - String.length p) s.
Proof.
  revert s. induction p as [|c p IH]; intros s H.
  - cbn. rewrite Nat.sub_0_r. symmetry. apply substring_all.
  - destruct s as [|d s]; [discriminate|]. cbn in H.
    destruct (ascii_dec c d) as [->|]; [|discriminate].
    cbn. f_equal. apply IH, H.
Qed.

Lemma or_else_empty o a : or_else o "" = a -> a <> "" -> o = Some a.
Proof.
  destruct o as [s|]; cbn; [|congruence].
  destruct (String.eqb_spec s ""); congruence.
Qed.

(** What [auth] does with a request: it hands an authorized one to the
    handler, and answers every other one itself. *)
Lemma auth_outcome req next fs o fs' :
  Index.auth req next fs = (o, fs') ->
  (authorized req /\ next fs = (o, fs')) \/
  (fs' = fs /\
   (o = Normal (mkResponse 401 (Some (message "Missing Authorization header"))) \/
    o = Normal (mkResponse 401 (Some (message "Invalid or expired token"))))).
Proof.
  unfold Index.auth. intros E.
  destruct (startsWith (or_else (authorization req) "") "Bearer ") eqn:Hs;
    [|injection E as <- <-; auto].
  destruct (slice (or_else (authorization req) "") 7) as [|c token] eqn:Ht;
    [injection E as <- <-; auto|].
  destruct (jwt_verify (String c token) Index.JWT_SECRET) as [payload|e] eqn:Hv;
    [|injection E as <- <-; auto].
  left. split; [|exact E].
  exists (String c token), payload. split; [|split; [discriminate|exact Hv]].
  apply prefix_split in Hs. unfold slice in Ht. cbn [String.length] in Hs.
  rewrite Ht in Hs. apply or_else_empty; [exact Hs|discriminate].
Qed.

(** *** Every way a handler can end *)

Lemma get_prop_throws v k e :
  get_prop v k = Throw e -> e = TypeError /\ (v = None \/ v = Some JNull).
Proof.
  destruct v as [[]|]; cbn; intros H; try discriminate; injection H as <-; auto.
Qed.

Lemma body_prop_throws req k e :
  get_prop (Some (body req)) k = Throw e -> e = TypeError /\ body req = JNull.
Proof.
  intros H. apply get_prop_throws in H as [-> [H|H]]; [discriminate|].
  injection H as ->. auto.
Qed.

Lemma array_filter_throws cb l e :
  array_filter cb l = Throw e -> exists x, In x l /\ cb x = Throw e.
Proof.
  induction l as [|x l IH]; cbn; [discriminate|].
  destruct (cb x) as [b|e'] eqn:Hx.
  - destruct (array_filter cb l) as [l'|e'']; [discriminate|].
    intros [= <-]. destruct (IH eq_refl) as (y & Hy & E). exists y. auto.
  - intros [= <-]. exists x. auto.
Qed.

Lemma array_find_throws cb l e :
  array_find cb l = Throw e -> exists x, In x l /\ cb x = Throw e.
Proof.
  induction l as [|x l IH]; cbn; [discriminate|].
  destruct (cb x) as [[]|e'] eqn:Hx.
  - discriminate.
  - intros H. destruct (IH H) as (y & Hy & E). exists y. auto.
  - intros [= <-]. exists x. auto.
Qed.

Lemma array_find_found cb l x :
  array_find cb l = Normal (Some x) -> In x l /\ cb x = Normal true.
Proof.
  induction l as [|y l IH]; cbn; [discriminate|].
  destruct (cb y) as [[]|e'] eqn:Hy; [|intros H; destruct (IH H); auto|discriminate].
  intros [= <-]. auto.
Qed.

Lemma id_differs_throws id todo e :
  Part000.id_differs id todo = Throw e -> e = TypeError /\ todo = JNull.
Proof.
  unfold Part000.id_differs. destruct (get_prop (Some todo) "id") eqn:H; [discriminate|].
  intros [= <-]. apply get_prop_throws in H as [-> [H|H]]; [discriminate|].
  injection H as ->. auto.
Qed.

Lemma same_username_throws username u e :
  Index.same_username username u = Throw e -> e = TypeError /\ u = JNull.
Proof.
  unfold Index.same_username. destruct (get_prop (Some u) "username") eqn:H; [discriminate|].
  intros [= <-]. apply get_prop_throws in H as [-> [H|H]]; [discriminate|].
  injection H as ->. auto.
Qed.

Lemma same_credentials_throws username password u e :
  Index.same_credentials username password u = Throw e -> e = TypeError /\ u = JNull.
Proof.
  unfold Index.same_credentials.
  destruct (get_prop (Some u) "username") as [v|e'] eqn:H.
  - destruct (strict_eq v username); [|discriminate].
    destruct (get_prop (Some u) "password") as [w|e''] eqn:H'; [discriminate|].
    intros [= <-]. apply get_prop_throws in H' as [-> [H'|H']]; [discriminate|].
    injection H' as ->. auto.
  - intros [= <-]. apply get_prop_throws in H as [-> [H|H]]; [discriminate|].
    injection H as ->. auto.
Qed.

Lemma read_nonempty fs p v fs0 :
  read_store p fs = (Normal v, fs0) -> v <> JArr [] -> fs0 = fs /\ holds fs p v.
Proof.
  intros E Hv. destruct (read_store_cases fs p) as (v' & fs' & E' & Hc).
  rewrite E' in E. injection E as <- <-.
  destruct Hc as [[-> [H|H]]|[H _]]; auto; contradiction.
Qed.

(** POST /todos, from any files and for any body. *)
Lemma post_outcome rnd req fs o fs' :
  Part000.post_todos rnd req fs = (o, fs') ->
  (o = Throw TypeError /\ fs' = fs /\
   (body req = JNull \/ misshapen fs TODOS_FILE)) \/
  (o = Normal (mkResponse 400 (Some (message "Todo text is required"))) /\
   fs' = fs /\
   exists text, get_prop (Some (body req)) "text" = Normal text /\
                truthy text = false) \/
  (exists text l fs0,
      get_prop (Some (body req)) "text" = Normal (Some text) /\
      truthy (Some text) = true /\
      read_store TODOS_FILE fs = (Normal (JArr l), fs0) /\
      o = Normal (mkResponse 201 (Some (created rnd text))) /\
      fs' = set_file fs0 TODOS_FILE
              (JSON_stringify (JArr (l ++ [created rnd text])))).
Proof.
  unfold Part000.post_todos, bind, lift. intros E.
  destruct (get_prop (Some (body req)) "text") as [text|e] eqn:Ht.
  - destruct (truthy text) eqn:Htr; cbn [negb] in E.
    + destruct text as [text|]; [|discriminate].
      rewrite Part000_readTodos_eq in E.
      destruct (read_store TODOS_FILE fs) as [[v|e] fs0] eqn:Er.
      * destruct v as [| | | |l|]; cbn in E;
          try (injection E as <- <-; left;
               destruct (read_nonempty _ _ _ _ Er ltac:(discriminate)) as [-> Hh];
               split; [reflexivity|]; split; [reflexivity|]; right;
               eexists; split; [exact Hh|]; left; intros l; discriminate).
        injection E as <- <-. right. right. exists text, l, fs0. auto.
      * destruct (read_store_total fs TODOS_FILE) as (v & fs1 & E1). congruence.
    + injection E as <- <-. right. left. eauto.
  - injection E as <- <-. apply body_prop_throws in Ht as [-> Hb]. auto.
Qed.

(** GET /todos, from any files. *)
Lemma get_outcome req fs o fs' :
  Part000.get_todos req fs = (o, fs') ->
  exists v,
    read_store TODOS_FILE fs = (Normal v, fs') /\
    o = Normal (mkResponse 200 (Some v)).
Proof.
  unfold Part000.get_todos, bind. rewrite Part000_readTodos_eq. intros E.
  destruct (read_store_total fs TODOS_FILE) as (v & fs1 & E1).
  rewrite E1 in E. injection E as <- <-. eauto.
Qed.

(** DELETE /todos/:id, from any files. *)
Lemma delete_outcome req fs o fs' :
  Part000.delete_todo req fs = (o, fs') ->
  (o = Throw TypeError /\ fs' = fs /\ misshapen fs TODOS_FILE) \/
  (exists l,
      read_store TODOS_FILE fs = (Normal (JArr l), fs') /\
      filter (keeps (params_id req)) l = l /\
      o = Normal (mkResponse 404 (Some (message "Todo not found")))) \/
  (exists l fs0,
      read_store TODOS_FILE fs = (Normal (JArr l), fs0) /\
      length (filter (keeps (params_id req)) l) < length l /\
      o = Normal (mkResponse 204 None) /\
      fs' = set_file fs0 TODOS_FILE
              (JSON_stringify (JArr (filter (keeps (params_id req)) l)))).
Proof.
  unfold Part000.delete_todo, bind, lift. rewrite Part000_readTodos_eq. intros E.
  destruct (read_store_total fs TODOS_FILE) as (v & fs0 & Er). rewrite Er in E.
  destruct v as [| | | |l|];
    try (injection E as <- <-; left;
         destruct (read_nonempty _ _ _ _ Er ltac:(discriminate)) as [-> Hh];
         split; [reflexivity|]; split; [reflexivity|];
         eexists; split; [exact Hh|]; left; intros l; discriminate).
  destruct (array_filter (Part000.id_differs (params_id req)) l) as [l'|e] eqn:Ef.
  - pose proof (array_filter_total _ _ _ Ef) as ->.
    fold (keeps (params_id req)) in E.
    destruct (Nat.eqb_spec (length (filter (keeps (params_id req)) l)) (length l))
      as [El|El]; injection E as <- <-.
    + right. left. exists l. split; [exact Er|]. split; [|reflexivity].
      pose proof (proj1 (filter_length_same _ _) El) as Hall. clear - Hall.
      rename Hall into El.
      induction l as [|x l IH]; [reflexivity|]. cbn.
      rewrite (El x (or_introl eq_refl)). f_equal. apply IH.
      intros y Hy. apply El. now right.
    + right. right. exists l, fs0. split; [exact Er|]. split; [|auto].
      pose proof (filter_length_le (keeps (params_id req)) l). lia.
  - injection E as <- <-. left.
    apply array_filter_throws in Ef as (x & Hx & Ex).
    apply id_differs_throws in Ex as [-> ->].
    destruct (read_nonempty _ _ _ _ Er) as [-> Hh].
    { intros [= ->]. destruct Hx. }
    split; [reflexivity|]. split; [reflexivity|].
    eexists. split; [exact Hh|]. right. eauto.
Qed.

Lemma find_in_throws v cb e :
  (forall u e', cb u = Throw e' -> e' = TypeError /\ u = JNull) ->
  Index.find_in v cb = Throw e ->
  e = TypeError /\ ((forall l, v <> JArr l) \/ exists l, v = JArr l /\ In JNull l).
Proof.
  intros Hcb. destruct v as [| | | |l|]; cbn;
    try (intros [= <-]; split; [reflexivity|left; intros l; discriminate]).
  intros H. apply array_find_throws in H as (x & Hx & Ex).
  apply Hcb in Ex as [-> ->]. split; [reflexivity|]. right. eauto.
Qed.

Lemma find_in_normal v cb r :
  Index.find_in v cb = Normal r -> exists l, v = JArr l.
Proof. destruct v; cbn; try discriminate. eauto. Qed.

(** POST /auth/signup, from any files and for any body. *)
Lemma signup_outcome rnd req fs o fs' :
  Index.signup rnd req fs = (o, fs') ->
  (o = Throw TypeError /\ fs' = fs /\
   (body req = JNull \/ misshapen fs USERS_FILE)) \/
  (o = Normal (mkResponse 400
         (Some (message "username and password are required"))) /\
   fs' = fs /\
   exists username password,
     get_prop (Some (body req)) "username" = Normal username /\
     get_prop (Some (body req)) "password" = Normal password /\
     (truthy username = false \/ truthy password = false)) \/
  (exists username password l,
      get_prop (Some (body req)) "username" = Normal username /\
      get_prop (Some (body req)) "password" = Normal password /\
      truthy username = true /\ truthy password = true /\
      read_store USERS_FILE fs = (Normal (JArr l), fs') /\
      ((exists x, array_find (Index.same_username username) l = Normal (Some x) /\
                  o = Normal (mkResponse 409
                        (Some (message "username already exists")))))) \/
  (exists username password l fs0,
      get_prop (Some (body req)) "username" = Normal username /\
      get_prop (Some (body req)) "password" = Normal password /\
      truthy username = true /\ truthy password = true /\
      read_store USERS_FILE fs = (Normal (JArr l), fs0) /\
      array_find (Index.same_username username) l = Normal None /\
      o = Normal (mkResponse 201
            (Some (session
               (jwt_sign [("sub", Some (JStr rnd)); ("username", username)]
                         Index.JWT_SECRET) username))) /\
      fs' = set_file fs0 USERS_FILE
              (JSON_stringify (JArr (l ++ [new_user rnd username password])))).
Proof.
  unfold Index.signup, bind, lift. intros E.
  destruct (get_prop (Some (body req)) "username") as [username|e] eqn:Hu;
    [|injection E as <- <-; apply body_prop_throws in Hu as [-> Hb]; auto].
  destruct (get_prop (Some (body req)) "password") as [password|e] eqn:Hp;
    [|injection E as <- <-; apply body_prop_throws in Hp as [-> Hb]; auto].
  destruct (truthy username) eqn:Tu; cbn [negb orb] in E;
    [|injection E as <- <-; right; left; eauto 10].
  destruct (truthy password) eqn:Tp; cbn [negb orb] in E;
    [|injection E as <- <-; right; left; eauto 10].
  rewrite Index_readUsers_eq in E.
  destruct (read_store_total fs USERS_FILE) as (v & fs0 & Er). rewrite Er in E.
  destruct (Index.find_in v (Index.same_username username)) as [found|e] eqn:Ef.
  - destruct (find_in_normal _ _ _ Ef) as (l & ->). cbn in Ef.
    destruct found as [x|].
    + assert (Tx : truthy (Some x) = true).
      { apply array_find_found in Ef as [_ Hx]. unfold Index.same_username in Hx.
        destruct x; cbn in Hx; try discriminate; try reflexivity;
          destruct username as [[]|]; discriminate. }
      rewrite Tx in E. injection E as <- <-.
      right. right. left. exists username, password, l. eauto 10.
    + cbn in E. injection E as <- <-.
      right. right. right. exists username, password, l, fs0. auto 10.
  - injection E as <- <-. left.
    apply find_in_throws in Ef as [-> Hshape]; [|apply same_username_throws].
    destruct (read_nonempty _ _ _ _ Er) as [-> Hh].
    { intros ->. destruct Hshape as [H|(l & [= <-] & [])]. now apply (H []). }
    split; [reflexivity|]. split; [reflexivity|]. right. exists v. auto.
Qed.

(** POST /auth/login, from any files and for any body. *)
Lemma login_outcome req fs o fs' :
  Index.login req fs = (o, fs') ->
  (o = Throw TypeError /\ fs' = fs /\
   (body req = JNull \/ misshapen fs USERS_FILE)) \/
  (o = Normal (mkResponse 400
         (Some (message "username and password are required"))) /\
   fs' = fs /\
   exists username password,
     get_prop (Some (body req)) "username" = Normal username /\
     get_prop (Some (body req)) "password" = Normal password /\
     (truthy username = false \/ truthy password = false)) \/
  (exists username password l,
      get_prop (Some (body req)) "username" = Normal username /\
      get_prop (Some (body req)) "password" = Normal password /\
      truthy username = true /\ truthy password = true /\
      read_store USERS_FILE fs = (Normal (JArr l), fs') /\
      ((array_find (Index.same_credentials username password) l = Normal None /\
        o = Normal (mkResponse 401 (Some (message "invalid credentials")))) \/
       (exists x sub,
           array_find (Index.same_credentials username password) l =
             Normal (Some x) /\
           get_prop (Some x) "id" = Normal sub /\
           o = Normal (mkResponse 200
                 (Some (session
                    (jwt_sign [("sub", sub); ("username", username)]
                              Index.JWT_SECRET) username)))))).
Proof.
  unfold Index.login, bind, lift. intros E.
  destruct (get_prop (Some (body req)) "username") as [username|e] eqn:Hu;
    [|injection E as <- <-; apply body_prop_throws in Hu as [-> Hb]; auto].
  destruct (get_prop (Some (body req)) "password") as [password|e] eqn:Hp;
    [|injection E as <- <-; apply body_prop_throws in Hp as [-> Hb]; auto].
  destruct (truthy username) eqn:Tu; cbn [negb orb] in E;
    [|injection E as <- <-; right; left; eauto 10].
  destruct (truthy password) eqn:Tp; cbn [negb orb] in E;
    [|injection E as <- <-; right; left; eauto 10].
  rewrite Index_readUsers_eq in E.
  destruct (read_store_total fs USERS_FILE) as (v & fs0 & Er). rewrite Er in E.
  destruct (Index.find_in v (Index.same_credentials username password))
    as [found|e] eqn:Ef.
  - destruct (find_in_normal _ _ _ Ef) as (l & ->). cbn in Ef.
    destruct found as [x|].
    + assert (Hx : exists fields, x = JObj fields).
      { apply array_find_found in Ef as [_ Hx]. unfold Index.same_credentials in Hx.
        destruct x; cbn in Hx; try discriminate; eauto;
          destruct username as [[]|]; discriminate. }
      destruct Hx as (fields & ->). cbn in E. injection E as <- <-.
      right. right. exists username, password, l.
      repeat (split; [assumption || reflexivity|]). right.
      exists (JObj fields), (assoc "id" fields). auto.
    + cbn in E. injection E as <- <-.
      right. right. exists username, password, l. auto 10.
  - injection E as <- <-. left.
    apply find_in_throws in Ef as [-> Hshape]; [|apply same_credentials_throws].
    destruct (read_nonempty _ _ _ _ Er) as [-> Hh].
    { intros ->. destruct Hshape as [H|(l & [= <-] & [])]. now apply (H []). }
    split; [reflexivity|]. split; [reflexivity|]. right. exists v. auto.
Qed.

(** The three routes behind [auth] are the handlers without accounts,
    entered through the gate. *)
Lemma protected_route r rnd req :
  file_of r = TODOS_FILE ->
  exists handler,
    Index.serve r rnd req = Index.auth req handler /\
    handler =
      match r with
      | Index.GET_todos => Part000.get_todos req
      | Index.POST_todos => Part000.post_todos rnd req
      | _ => Part000.delete_todo req
      end.
Proof.
  destruct r; cbn; try discriminate; intros _; eexists; split; reflexivity.
Qed.

(** X3.  Nothing but a verified bearer token opens the todo routes. *)
Theorem todo_routes_open_to_verified_tokens_only :
  forall r rnd req fs o fs',
    file_of r = TODOS_FILE ->
    Index.serve r rnd req fs = (o, fs') ->
    (forall b, o <> Normal (mkResponse 401 b)) ->
    authorized req.
Proof.
  intros r rnd req fs o fs' Hr E Hno.
  destruct (protected_route r rnd req Hr) as (handler & Es & _).
  rewrite Es in E.
  destruct (auth_outcome _ _ _ _ _ E) as [[Ha _]|[_ [->| ->]]];
    [exact Ha| |]; exfalso; eapply Hno; reflexivity.
Qed.

Lemma path_eq_dec_todo r :
  file_of r = TODOS_FILE \/
  (r = Index.POST_auth_signup \/ r = Index.POST_auth_login).
Proof. destruct r; auto. Qed.

Lemma read_frame p fs v fs' q :
  read_store p fs = (Normal v, fs') -> q <> p -> file fs' q = file fs q.
Proof. intros E. exact (read_store_writes_only p _ _ _ E q). Qed.

Lemma todo_handler_frame r rnd req fs o fs' :
  match r with
  | Index.GET_todos => Part000.get_todos req
  | Index.POST_todos => Part000.post_todos rnd req
  | _ => Part000.delete_todo req
  end fs = (o, fs') ->
  users_json fs' = users_json fs.
Proof.
  assert (Hq : USERS_FILE <> TODOS_FILE) by discriminate.
  destruct r; intros E.
  1,2,5: destruct (delete_outcome _ _ _ _ E)
    as [(_ & -> & _)|[(l & Er & _)|(l & fs0 & Er & _ & _ & ->)]];
    [reflexivity|exact (read_frame _ _ _ _ _ Er Hq)|exact (read_frame _ _ _ _ _ Er Hq)].
  - destruct (get_outcome _ _ _ _ E) as (v & Er & _).
    exact (read_frame _ _ _ _ _ Er Hq).
  - destruct (post_outcome _ _ _ _ _ E)
      as [(_ & -> & _)|[(_ & -> & _)|(t & l & fs0 & _ & _ & Er & _ & ->)]];
      [reflexivity|reflexivity|exact (read_frame _ _ _ _ _ Er Hq)].
Qed.

Lemma serve_frame r rnd req fs o fs' :
  Index.serve r rnd req fs = (o, fs') ->
  forall q, q <> file_of r -> file fs' q = file fs q.
Proof.
  intros E q Hq.
  destruct (path_eq_dec_todo r) as [Hr|Hr].
  - destruct (protected_route r rnd req Hr) as (handler & Es & Eh).
    rewrite Hr in Hq. destruct q; [contradiction|]. cbn.
    rewrite Es in E.
    destruct (auth_outcome _ _ _ _ _ E) as [[_ E']|[-> _]]; [|reflexivity].
    rewrite Eh in E'. exact (todo_handler_frame r rnd req _ _ _ E').
  - destruct Hr as [-> | ->]; cbn in E, Hq.
    + exact (signup_writes_only rnd req _ _ _ E q Hq).
    + exact (login_writes_only req _ _ _ E q Hq).
Qed.

(** X4.  A request changes no file but the one of its route: signup and
    login never touch [todos.json], the todo routes never touch
    [users.json], whatever the request and whatever the files hold. *)
Theorem routes_write_their_own_file_only :
  forall r rnd req fs o fs',
    Index.serve r rnd req fs = (o, fs') ->
    match file_of r with
    | USERS_FILE => todos_json fs' = todos_json fs
    | TODOS_FILE => users_json fs' = users_json fs
    end.
Proof.
  intros r rnd req fs o fs' E.
  pose proof (serve_frame _ _ _ _ _ _ E) as H.
  destruct (file_of r).
  - apply (H USERS_FILE). discriminate.
  - apply (H TODOS_FILE). discriminate.
Qed.

Lemma todo_handler_throws r rnd req fs e fs' :
  match r with
  | Index.GET_todos => Part000.get_todos req
  | Index.POST_todos => Part000.post_todos rnd req
  | _ => Part000.delete_todo req
  end fs = (Throw e, fs') ->
  e = TypeError /\ fs' = fs /\
  (body req = JNull \/ misshapen fs TODOS_FILE).
Proof.
  destruct r; intros E.
  1,2,5: destruct (delete_outcome _ _ _ _ E)
    as [(Ho & -> & Hm)|[(l & _ & _ & Ho)|(l & fs0 & _ & _ & Ho & _)]];
    try discriminate Ho; injection Ho as ->; auto.
  - destruct (get_outcome _ _ _ _ E) as (v & _ & Ho). discriminate Ho.
  - destruct (post_outcome _ _ _ _ _ E)
      as [(Ho & -> & Hm)|[(Ho & _)|(t & l & fs0 & _ & _ & _ & Ho & _)]];
      try discriminate Ho; injection Ho as ->; auto.
Qed.

Lemma serve_throws r rnd req fs e fs' :
  Index.serve r rnd req fs = (Throw e, fs') ->
  e = TypeError /\ fs' = fs /\
  (body req = JNull \/ misshapen fs (file_of r)).
Proof.
  intros E.
  destruct (path_eq_dec_todo r) as [Hr|Hr].
  - destruct (protected_route r rnd req Hr) as (handler & Es & Eh).
    rewrite Es in E. rewrite Hr.
    destruct (auth_outcome _ _ _ _ _ E) as [[_ E']|[_ [Ho|Ho]]];
      try discriminate Ho.
    rewrite Eh in E'. exact (todo_handler_throws r rnd req _ _ _ E').
  - destruct Hr as [-> | ->]; cbn in E |- *.
    + destruct (signup_outcome _ _ _ _ _ E)
        as [(Ho & -> & Hm)|[(Ho & _)|[(u & p & l & _ & _ & _ & _ & _ & x & _ & Ho)
           |(u & p & l & fs0 & _ & _ & _ & _ & _ & _ & Ho & _)]]];
        try discriminate Ho. injection Ho as ->. auto.
    + destruct (login_outcome _ _ _ _ E)
        as [(Ho & -> & Hm)|[(Ho & _)|(u & p & l & _ & _ & _ & _ & _ &
             [(_ & Ho)|(x & sub & _ & _ & Ho)])]];
        try discriminate Ho. injection Ho as ->. auto.
Qed.

(** X5.  A request that ends in an exception has written nothing.  The
    exception is a [TypeError], and it comes from a body that is [null] or
    from a file that holds JSON of the wrong shape; a syntax error in a
    file and a rejected token never surface.  The same holds for the
    handlers of the program without accounts. *)
Theorem failed_requests_write_nothing :
  forall rnd req fs e fs',
    (forall r,
        Index.serve r rnd req fs = (Throw e, fs') ->
        e = TypeError /\ fs' = fs /\
        (body req = JNull \/ misshapen fs (file_of r))) /\
    (Part000.get_todos req fs = (Throw e, fs') \/
     Part000.post_todos rnd req fs = (Throw e, fs') \/
     Part000.delete_todo req fs = (Throw e, fs') ->
     e = TypeError /\ fs' = fs /\
     (body req = JNull \/ misshapen fs TODOS_FILE)).
Proof.
  intros rnd req fs e fs'. split.
  - intros r E. exact (serve_throws _ _ _ _ _ _ E).
  - intros [E|[E|E]].
    + exact (todo_handler_throws Index.GET_todos rnd req _ _ _ E).
    + exact (todo_handler_throws Index.POST_todos rnd req _ _ _ E).
    + exact (todo_handler_throws Index.DELETE_todos_id rnd req _ _ _ E).
Qed.

Lemma todo_handler_status r rnd req fs resp fs' :
  file_of r = TODOS_FILE ->
  match r with
  | Index.GET_todos => Part000.get_todos req
  | Index.POST_todos => Part000.post_todos rnd req
  | _ => Part000.delete_todo req
  end fs = (Normal resp, fs') ->
  In (status resp) (statuses r) /\ (status resp = 400 -> fs' = fs).
Proof.
  destruct r; try discriminate; intros _ E.
  - destruct (get_outcome _ _ _ _ E) as (v & _ & [= ->]). cbn. split; [auto|discriminate].
  - destruct (post_outcome _ _ _ _ _ E)
      as [(Ho & _)|[(Ho & -> & _)|(t & l & fs0 & _ & _ & _ & Ho & _)]];
      try discriminate Ho; injection Ho as ->; cbn; split; auto; discriminate.
  - destruct (delete_outcome _ _ _ _ E)
      as [(Ho & _)|[(l & _ & _ & Ho)|(l & fs0 & _ & _ & Ho & _)]];
      try discriminate Ho; injection Ho as ->; cbn; split; auto; discriminate.
Qed.

(** X6.  Each route answers with one of its own statuses, and an answer
    400, 409, or a 401 of a todo route, is given before anything is
    written. *)
Theorem refusals_write_nothing :
  forall r rnd req fs resp fs',
    Index.serve r rnd req fs = (Normal resp, fs') ->
    In (status resp) (statuses r) /\
    (status resp = 400 \/ status resp = 409 \/
     (status resp = 401 /\ file_of r = TODOS_FILE) ->
     fs' = fs).
Proof.
  intros r rnd req fs resp fs' E.
  destruct (path_eq_dec_todo r) as [Hr|Hr].
  - destruct (protected_route r rnd req Hr) as (handler & Es & Eh).
    rewrite Es in E.
    destruct (auth_outcome _ _ _ _ _ E) as [[_ E']|[-> Ho]].
    + rewrite Eh in E'.
      destruct (todo_handler_status r rnd req _ _ _ Hr E') as [Hin H400].
      split; [exact Hin|]. intros [H|[H|[H _]]]; [auto| |].
      * exfalso. destruct r; cbn in Hin; try discriminate Hr;
          rewrite H in Hin; intuition discriminate.
      * exfalso. clear - E' H Hr.
        destruct r; try discriminate Hr.
        -- destruct (get_outcome _ _ _ _ E') as (v & _ & [= ->]). discriminate H.
        -- destruct (post_outcome _ _ _ _ _ E')
             as [(Ho & _)|[(Ho & _)|(t & l & fs0 & _ & _ & _ & Ho & _)]];
             try discriminate Ho; injection Ho as ->; discriminate H.
        -- destruct (delete_outcome _ _ _ _ E')
             as [(Ho & _)|[(l & _ & _ & Ho)|(l & fs0 & _ & _ & Ho & _)]];
             try discriminate Ho; injection Ho as ->; discriminate H.
    + split; [|reflexivity].
      destruct Ho as [[= ->]|[= ->]]; destruct r; try discriminate Hr; cbn; auto.
  - destruct Hr as [-> | ->]; cbn in E |- *.
    + destruct (signup_outcome _ _ _ _ _ E)
        as [(Ho & _)|[(Ho & -> & _)|[(u & p & l & _ & _ & _ & _ & Er & x & Ef & Ho)
           |(u & p & l & fs0 & _ & _ & _ & _ & _ & _ & Ho & _)]]];
        try discriminate Ho; injection Ho as ->; cbn.
      * split; auto.
      * split; [auto|]. intros _.
        apply (read_nonempty _ _ _ _ Er). intros [= ->]. discriminate Ef.
      * split; [auto|]. intros [H|[H|[_ H]]]; discriminate H.
    + destruct (login_outcome _ _ _ _ E)
        as [(Ho & _)|[(Ho & -> & _)|(u & p & l & _ & _ & _ & _ & _ &
             [(_ & Ho)|(x & sub & _ & _ & Ho)])]];
        try discriminate Ho; injection Ho as ->; cbn.
      * split; auto.
      * split; [auto|]. intros [H|[H|[_ H]]]; discriminate H.
      * split; [auto|]. intros [H|[H|[_ H]]]; discriminate H.
Qed.

(** X7.  Only a creation (201) and a deletion (204) change what is stored.
    After every other answer the files are as before, or the file of the
    route, found missing or malformed, has been reset to the empty
    array. *)
Theorem only_201_and_204_change_data :
  forall r rnd req fs resp fs',
    Index.serve r rnd req fs = (Normal resp, fs') ->
    status resp <> 201 -> status resp <> 204 ->
    fs' = fs \/
    (fs' = set_file fs (file_of r) "[]" /\
     forall v, ~ holds fs (file_of r) v).
Proof.
  intros r rnd req fs resp fs' E H201 H204.
  assert (Hread : forall p v fs0,
             read_store p fs = (Normal v, fs0) ->
             fs0 = fs \/ (fs0 = set_file fs p "[]" /\ forall w, ~ holds fs p w)).
  { intros p v fs0 Er.
    destruct (file fs p) as [data|] eqn:Hf.
    - destruct (String.eqb_spec (trim data) "") as [Hb|Hb].
      + rewrite (read_store_blank _ _ _ Hf Hb) in Er. injection Er as _ <-. auto.
      + destruct (JSON_parse data) as [w|e] eqn:He.
        * rewrite (read_store_parsed _ _ _ _ Hf Hb He) in Er. injection Er as _ <-. auto.
        * rewrite (read_store_corrupt _ _ _ _ Hf Hb He) in Er. injection Er as _ <-.
          right. split; [reflexivity|]. intros w (d & Hd & Hw). congruence.
    - rewrite (read_store_absent _ _ Hf) in Er. injection Er as _ <-.
      right. split; [reflexivity|]. intros w (d & Hd & _). congruence. }
  destruct (path_eq_dec_todo r) as [Hr|Hr].
  - destruct (protected_route r rnd req Hr) as (handler & Es & Eh).
    rewrite Es in E. rewrite Hr.
    destruct (auth_outcome _ _ _ _ _ E) as [[_ E']|[-> _]]; [|auto].
    rewrite Eh in E'. clear Es Eh E. destruct r; try discriminate Hr.
    + destruct (get_outcome _ _ _ _ E') as (v & Er & _). exact (Hread _ _ _ Er).
    + destruct (post_outcome _ _ _ _ _ E')
        as [(_ & -> & _)|[(_ & -> & _)|(t & l & fs0 & _ & _ & _ & [= ->] & _)]];
        auto. now destruct H201.
    + destruct (delete_outcome _ _ _ _ E')
        as [(_ & -> & _)|[(l & Er & _)|(l & fs0 & _ & _ & [= ->] & _)]];
        auto; [exact (Hread _ _ _ Er)|now destruct H204].
  - destruct Hr as [-> | ->]; cbn in E |- *.
    + destruct (signup_outcome _ _ _ _ _ E)
        as [(_ & -> & _)|[(_ & -> & _)|[(u & p & l & _ & _ & _ & _ & Er & _)
           |(u & p & l & fs0 & _ & _ & _ & _ & _ & _ & [= ->] & _)]]];
        auto; [exact (Hread _ _ _ Er)|now destruct H201].
    + destruct (login_outcome _ _ _ _ E)
        as [(_ & -> & _)|[(_ & -> & _)|(u & p & l & _ & _ & _ & _ & Er & _)]];
        auto. exact (Hread _ _ _ Er).
Qed.

Context {L : JsonLaws P}.

Lemma read_store_again fs p v fs1 :
  read_store p fs = (Normal v, fs1) -> read_store p fs1 = (Normal v, fs1).
Proof.
  intros E. destruct (read_store_cases fs p) as (v' & fs' & E' & Hc).
  rewrite E' in E. injection E as <- <-.
  destruct Hc as [[-> _]|[-> ->]]; [exact E'|].
  apply holds_read. exists "[]". split; [apply file_set_same|apply parse_empty_array].
Qed.

(** X2.  A second read finds the file as the first one left it: it returns
    the same value and writes nothing. *)
Theorem second_read_changes_nothing :
  forall fs v fs1,
    (Index.readTodos fs = (Normal v, fs1) -> Index.readTodos fs1 = (Normal v, fs1)) /\
    (Index.readUsers fs = (Normal v, fs1) -> Index.readUsers fs1 = (Normal v, fs1)) /\
    (Part000.readTodos fs = (Normal v, fs1) ->
     Part000.readTodos fs1 = (Normal v, fs1)).
Proof.
  intros fs v fs1.
  rewrite Index_readTodos_eq, Index_readUsers_eq, Part000_readTodos_eq.
  repeat split; apply read_store_again.
Qed.

(** X1.  What a writer wrote, the reader returns, and it leaves the file as
    written; this holds for every JSON value, array or not. *)
Theorem written_value_is_read_back :
  forall v fs,
    (Index.writeTodos v ;; Index.readTodos) fs =
      (Normal v, set_file fs TODOS_FILE (JSON_stringify v)) /\
    (Index.writeUsers v ;; Index.readUsers) fs =
      (Normal v, set_file fs USERS_FILE (JSON_stringify v)) /\
    (Part000.writeTodos v ;; Part000.readTodos) fs =
      (Normal v, set_file fs TODOS_FILE (JSON_stringify v)).
Proof.
  intros v fs.
  rewrite Index_readTodos_eq, Index_readUsers_eq, Part000_readTodos_eq.
  unfold Index.writeTodos, Index.writeUsers, Part000.writeTodos, bind, writeFileSync.
  repeat split; apply holds_read, holds_write.
Qed.

(** *** Files of the wrong shape *)



(** *** The server never trips over what it stored itself *)

Lemma kept_files fs : kept fs <-> forall p, well_shaped fs p.
Proof.
  unfold kept, well_shaped. split.
  - intros [Ht Hu] []; assumption.
  - intros H. split; [apply (H TODOS_FILE)|apply (H USERS_FILE)].
Qed.

Lemma stored_holds fs p l v : stored fs p l -> holds fs p v -> v = JArr l.
Proof.
  intros [H | data H Hb | data e H Hb He | data l' H Hb Hp] (d & Hd & Hv);
    rewrite H in Hd; try discriminate; injection Hd as <-.
  - exfalso. exact (parse_nonblank _ _ Hv Hb).
  - congruence.
  - congruence.
Qed.

Lemma well_shaped_not_misshapen fs p : well_shaped fs p -> ~ misshapen fs p.
Proof.
  intros (l & Hs & Ho) (v & Hh & Hbad).
  pose proof (stored_holds _ _ _ _ Hs Hh) as ->.
  destruct Hbad as [Hn|(l' & [= <-] & Hin)]; [now apply (Hn l)|].
  rewrite forallb_forall in Ho. specialize (Ho JNull Hin). discriminate.
Qed.

Lemma stored_read_eq fs p l v fs0 :
  stored fs p l -> read_store p fs = (Normal v, fs0) ->
  v = JArr l /\ stored fs0 p l.
Proof.
  intros Hs E. destruct (stored_read _ _ _ Hs) as (fs1 & E1 & Hs1 & _).
  rewrite E1 in E. injection E as <- <-. auto.
Qed.

Lemma objects_app l x :
  forallb is_object l = true -> is_object x = true ->
  forallb is_object (l ++ [x]) = true.
Proof. intros Hl Hx. rewrite forallb_app, Hl. cbn. now rewrite Hx. Qed.

Lemma objects_filter f l :
  forallb is_object l = true -> forallb is_object (filter f l) = true.
Proof.
  rewrite !forallb_forall. intros H x Hx. apply filter_In in Hx as [Hx _]. auto.
Qed.

Lemma well_shaped_after r rnd req fs o fs' :
  well_shaped fs (file_of r) ->
  Index.serve r rnd req fs = (o, fs') ->
  well_shaped fs' (file_of r).
Proof.
  intros (l & Hs & Ho) E.
  destruct (path_eq_dec_todo r) as [Hr|Hr].
  - destruct (protected_route r rnd req Hr) as (handler & Es & Eh).
    rewrite Hr in *. rewrite Es in E.
    destruct (auth_outcome _ _ _ _ _ E) as [[_ E']|[-> _]]; [|exists l; auto].
    rewrite Eh in E'. clear Es Eh E. destruct r; try discriminate Hr.
    + destruct (get_effect _ _ _ _ _ Hs E') as [Hs' _]. exists l. auto.
    + destruct (post_effect _ _ _ _ _ _ Hs E') as [[Hs' _]|(text & _ & Hs')].
      * exists l. auto.
      * eexists. split; [exact Hs'|]. now apply objects_app.
    + destruct (delete_effect _ _ _ _ _ Hs E') as [[Hs' _]|[_ Hs']].
      * exists l. auto.
      * eexists. split; [exact Hs'|]. now apply objects_filter.
  - destruct Hr as [-> | ->]; cbn in E, Hs |- *.
    + destruct (signup_outcome _ _ _ _ _ E)
        as [(_ & -> & _)|[(_ & -> & _)|[(u & p & l0 & _ & _ & _ & _ & Er & _)
           |(u & p & l0 & fs0 & _ & _ & _ & _ & Er & _ & _ & ->)]]];
        try (exists l; auto; fail).
      * destruct (stored_read_eq _ _ _ _ _ Hs Er) as [_ Hs']. exists l. auto.
      * destruct (stored_read_eq _ _ _ _ _ Hs Er) as [[= ->] _].
        eexists. split; [apply stored_write|]. now apply objects_app.
    + destruct (login_outcome _ _ _ _ E)
        as [(_ & -> & _)|[(_ & -> & _)|(u & p & l0 & _ & _ & _ & _ & Er & _)]];
        try (exists l; auto; fail).
      destruct (stored_read_eq _ _ _ _ _ Hs Er) as [_ Hs']. exists l. auto.
Qed.

Lemma well_shaped_same fs fs' p :
  file fs' p = file fs p -> well_shaped fs p -> well_shaped fs' p.
Proof.
  intros E (l & Hs & Ho). exists l. split; [|exact Ho].
  exact (stored_same_file _ _ _ _ E Hs).
Qed.

Lemma path_eq_dec (p q : path) : p = q \/ p <> q.
Proof. destruct p, q; auto; right; discriminate. Qed.

Lemma serve_kept c fs o fs' :
  kept fs -> has_body c ->
  Index.serve (call_route c) (call_rnd c) (call_req c) fs = (o, fs') ->
  kept fs' /\ exists resp, o = Normal resp.
Proof.
  destruct c as [r rnd req]. intros Hk Hb E. cbn in *.
  unfold has_body in Hb. cbn in Hb.
  rewrite kept_files in Hk. split.
  - apply kept_files. intros p.
    destruct (path_eq_dec p (file_of r)) as [->|Hp].
    + exact (well_shaped_after _ _ _ _ _ _ (Hk _) E).
    + apply (well_shaped_same fs); [|apply Hk].
      exact (serve_frame _ _ _ _ _ _ E p Hp).
  - destruct o as [resp|e]; [eauto|exfalso].
    destruct (serve_throws _ _ _ _ _ _ E) as (_ & _ & [H|H]).
    + contradiction.
    + exact (well_shaped_not_misshapen _ _ (Hk _) H).
Qed.

(** X10.  While both files stand for lists of objects, no request with a
    body makes a handler throw, and both files stand for lists of objects
    afterwards. *)
Theorem served_without_exception :
  forall r rnd req fs o fs',
    kept fs -> body req <> JNull ->
    Index.serve r rnd req fs = (o, fs') ->
    kept fs' /\ exists resp, o = Normal resp.
Proof.
  intros r rnd req fs o fs' Hk Hb E.
  exact (serve_kept (mkCall r rnd req) fs o fs' Hk Hb E).
Qed.

(** X11.  A server started in a directory without the two files answers
    every request of every sequence: no handler ever throws. *)
Theorem server_never_throws :
  forall calls,
    Forall has_body calls ->
    Forall (fun o => exists resp, o = Normal resp)
           (fst (replay calls (mkFiles None None))).
Proof.
  intros calls Hc.
  assert (Hk : kept (mkFiles None None)).
  { split; exists []; split; try reflexivity; now apply stored_absent. }
  revert Hk. generalize (mkFiles None None).
  induction Hc as [|c calls Hb _ IH]; intros fs Hk; [constructor|].
  cbn [replay].
  destruct (Index.serve (call_route c) (call_rnd c) (call_req c) fs) as [o fs1] eqn:E.
  destruct (serve_kept c fs o fs1 Hk Hb E) as [Hk1 Ho].
  specialize (IH fs1 Hk1). destruct (replay calls fs1) as [os fs2].
  cbn in *. constructor; assumption.
Qed.

(** *** Requests one after the other *)

Lemma signup_holds fs us rnd req u p :
  holds fs USERS_FILE (JArr (map User.to_json us)) ->
  get_prop (Some (body req)) "username" = Normal (Some (JStr u)) ->
  get_prop (Some (body req)) "password" = Normal (Some (JStr p)) ->
  u <> "" -> p <> "" ->
  Index.signup rnd req fs =
    match find (has_username u) us with
    | Some _ =>
        (Normal (mkResponse 409 (Some (message "username already exists"))), fs)
    | None =>
        (Normal (mkResponse 201 (Some (signed_in
           (jwt_sign [("sub", Some (JStr rnd)); ("username", Some (JStr u))]
                     Index.JWT_SECRET) u))),
         set_file fs USERS_FILE
           (JSON_stringify (JArr (map User.to_json (us ++ [User.mk rnd u p])))))
    end.
Proof.
  intros Hh Hu Hp Hune Hpne.
  unfold Index.signup, bind, lift. rewrite Hu, Hp.
  rewrite !text_of_string_truthy by assumption. cbn [negb orb].
  rewrite Index_readUsers_eq, (holds_read _ _ _ Hh). cbn [Index.find_in].
  rewrite find_username_typed, truthy_user.
  destruct (find (has_username u) us); [reflexivity|].
  rewrite map_app. reflexivity.
Qed.

Lemma login_holds fs us req u p :
  holds fs USERS_FILE (JArr (map User.to_json us)) ->
  get_prop (Some (body req)) "username" = Normal (Some (JStr u)) ->
  get_prop (Some (body req)) "password" = Normal (Some (JStr p)) ->
  u <> "" -> p <> "" ->
  Index.login req fs =
    (Normal
       match find (has_credentials u p) us with
       | Some x =>
           mkResponse 200 (Some (signed_in
             (jwt_sign [("sub", Some (JStr (User.id x))); ("username", Some (JStr u))]
                       Index.JWT_SECRET) u))
       | None => mkResponse 401 (Some (message "invalid credentials"))
       end, fs).
Proof.
  intros Hh Hu Hp Hune Hpne.
  unfold Index.login, bind, lift. rewrite Hu, Hp.
  rewrite !text_of_string_truthy by assumption. cbn [negb orb].
  rewrite Index_readUsers_eq, (holds_read _ _ _ Hh). cbn [Index.find_in].
  rewrite find_credentials_typed, truthy_user.
  destruct (find (has_credentials u p) us); reflexivity.
Qed.

Lemma find_app_new {A} (f : A -> bool) l x :
  find f l = None -> f x = true -> find f (l ++ [x]) = Some x.
Proof.
  induction l as [|y l IH]; cbn; intros Hn Hx; [now rewrite Hx|].
  destruct (f y); [discriminate|auto].
Qed.

Lemma find_app_none {A} (f : A -> bool) l x :
  find f l = None -> f x = false -> find f (l ++ [x]) = None.
Proof.
  induction l as [|y l IH]; cbn; intros Hn Hx; [now rewrite Hx|].
  destruct (f y); [discriminate|auto].
Qed.

Lemma has_credentials_fresh u q us :
  find (has_username u) us = None -> find (has_credentials u q) us = None.
Proof.
  induction us as [|x us IH]; cbn; [reflexivity|].
  unfold has_username at 1, has_credentials at 1.
  destruct (User.username x =? u); [discriminate|]. exact IH.
Qed.

(** What a signup of a fresh name leaves, and what it answers. *)
Lemma signup_fresh fs us rnd req u p :
  stored fs USERS_FILE (map User.to_json us) ->
  get_prop (Some (body req)) "username" = Normal (Some (JStr u)) ->
  get_prop (Some (body req)) "password" = Normal (Some (JStr p)) ->
  u <> "" -> p <> "" ->
  ~ In u (map User.username us) ->
  exists fs1,
    Index.signup rnd req fs =
      (Normal (mkResponse 201 (Some (signed_in
         (jwt_sign [("sub", Some (JStr rnd)); ("username", Some (JStr u))]
                   Index.JWT_SECRET) u))), fs1) /\
    holds fs1 USERS_FILE (JArr (map User.to_json (us ++ [User.mk rnd u p]))) /\
    file fs1 TODOS_FILE = file fs TODOS_FILE.
Proof.
  intros Hs Hu Hp Hune Hpne Hfresh.
  destruct (signup_valid fs us rnd req u p Hs Hu Hp Hune Hpne) as (fs0 & Hfs0 & E).
  rewrite (proj2 (find_username_none u us) Hfresh) in E.
  eexists. split; [exact E|]. split; [apply holds_write|].
  destruct Hfs0 as [->|[_ ->]]; reflexivity.
Qed.

(** X16.  Whoever signed up can log in.  After a signup of a fresh name, a
    login with the same name and password answers 200 and signs the
    identifier the signup stored; with another password it answers 401.
    Neither login writes. *)
Theorem signup_then_login :
  forall fs us rnd req u p,
    stored fs USERS_FILE (map User.to_json us) ->
    get_prop (Some (body req)) "username" = Normal (Some (JStr u)) ->
    get_prop (Some (body req)) "password" = Normal (Some (JStr p)) ->
    u <> "" -> p <> "" ->
    ~ In u (map User.username us) ->
    exists fs1 resp,
      Index.signup rnd req fs = (Normal resp, fs1) /\ status resp = 201 /\
      (forall req',
          get_prop (Some (body req')) "username" = Normal (Some (JStr u)) ->
          get_prop (Some (body req')) "password" = Normal (Some (JStr p)) ->
          Index.login req' fs1 =
            (Normal (mkResponse 200 (Some (signed_in
               (jwt_sign [("sub", Some (JStr rnd)); ("username", Some (JStr u))]
                         Index.JWT_SECRET) u))), fs1)) /\
      (forall req' q,
          get_prop (Some (body req')) "username" = Normal (Some (JStr u)) ->
          get_prop (Some (body req')) "password" = Normal (Some (JStr q)) ->
          q <> "" -> q <> p ->
          Index.login req' fs1 =
            (Normal (mkResponse 401 (Some (message "invalid credentials"))), fs1)).
Proof.
  intros fs us rnd req u p Hs Hu Hp Hune Hpne Hfresh.
  destruct (signup_fresh fs us rnd req u p Hs Hu Hp Hune Hpne Hfresh)
    as (fs1 & E & Hh & _).
  pose proof (proj2 (find_username_none u us) Hfresh) as Hnone.
  eexists fs1, _. split; [exact E|]. split; [reflexivity|]. split.
  - intros req' Hu' Hp'.
    rewrite (login_holds _ _ _ _ _ Hh Hu' Hp' Hune Hpne).
    rewrite (find_app_new _ _ _ (has_credentials_fresh u p us Hnone)); [reflexivity|].
    unfold has_credentials. cbn. now rewrite !String.eqb_refl.
  - intros req' q Hu' Hq' Hqne Hdiff.
    rewrite (login_holds _ _ _ _ _ Hh Hu' Hq' Hune Hqne).
    rewrite (find_app_none _ _ _ (has_credentials_fresh u q us Hnone)); [reflexivity|].
    unfold has_credentials. cbn. rewrite String.eqb_refl. cbn.
    apply String.eqb_neq. congruence.
Qed.

(** X17.  A name can be taken once.  After a signup of a fresh name, every
    further signup with that name, whatever its password, answers 409 and
    writes nothing. *)
Theorem second_signup_is_refused :
  forall fs us rnd req u p,
    stored fs USERS_FILE (map User.to_json us) ->
    get_prop (Some (body req)) "username" = Normal (Some (JStr u)) ->
    get_prop (Some (body req)) "password" = Normal (Some (JStr p)) ->
    u <> "" -> p <> "" ->
    ~ In u (map User.username us) ->
    exists fs1 resp,
      Index.signup rnd req fs = (Normal resp, fs1) /\ status resp = 201 /\
      forall rnd' req' q,
        get_prop (Some (body req')) "username" = Normal (Some (JStr u)) ->
        get_prop (Some (body req')) "password" = Normal (Some (JStr q)) ->
        q <> "" ->
        Index.signup rnd' req' fs1 =
          (Normal (mkResponse 409 (Some (message "username already exists"))),
           fs1).
Proof.
  intros fs us rnd req u p Hs Hu Hp Hune Hpne Hfresh.
  destruct (signup_fresh fs us rnd req u p Hs Hu Hp Hune Hpne Hfresh)
    as (fs1 & E & Hh & _).
  eexists fs1, _. split; [exact E|]. split; [reflexivity|].
  intros rnd' req' q Hu' Hq' Hqne.
  rewrite (signup_holds _ _ rnd' _ _ _ Hh Hu' Hq' Hune Hqne).
  rewrite (find_app_new (has_username u) us (User.mk rnd u p)); [reflexivity| |].
  - now apply find_username_none.
  - unfold has_username. cbn. apply String.eqb_refl.
Qed.

(** X18.  The token of a signup opens the todo routes: signup signs with the
    secret [auth] verifies with.  It takes a [jsonwebtoken] that verifies
    what it has just signed. *)
Theorem issued_token_opens_todos :
  forall fs us rnd req u p payload,
    stored fs USERS_FILE (map User.to_json us) ->
    get_prop (Some (body req)) "username" = Normal (Some (JStr u)) ->
    get_prop (Some (body req)) "password" = Normal (Some (JStr p)) ->
    u <> "" -> p <> "" ->
    ~ In u (map User.username us) ->
    let token :=
      jwt_sign [("sub", Some (JStr rnd)); ("username", Some (JStr u))]
               Index.JWT_SECRET in
    token <> "" ->
    jwt_verify token Index.JWT_SECRET = Normal payload ->
    exists fs1,
      Index.signup rnd req fs =
        (Normal (mkResponse 201 (Some (signed_in token u))), fs1) /\
      forall req' todos,
        authorization req' = Some ("Bearer " ++ token) ->
        stored fs1 TODOS_FILE todos ->
        exists fs2,
          Index.get_todos req' fs1 =
            (Normal (mkResponse 200 (Some (JArr todos))), fs2).
Proof.
  intros fs us rnd req u p payload Hs Hu Hp Hune Hpne Hfresh token Htok Hver.
  destruct (signup_fresh fs us rnd req u p Hs Hu Hp Hune Hpne Hfresh)
    as (fs1 & E & _ & _).
  exists fs1. split; [exact E|].
  intros req' todos Hh Hst.
  assert (Ha : authorized req') by (exists token, payload; auto).
  rewrite (index_get_is_part000 _ Ha).
  destruct (Part000.get_todos req' fs1) as [o fs2] eqn:Eg.
  destruct (get_effect _ _ _ _ _ Hst Eg) as [_ ->]. eauto.
Qed.

Lemma filter_fresh id ts :
  ~ In id (map Todo.id ts) -> filter (id_is_not id) ts = ts.
Proof.
  intros H. pose proof (proj1 (id_absent_iff _ _) H) as Hall. clear H.
  induction ts as [|x ts IH]; [reflexivity|]. cbn.
  rewrite (Hall x (or_introl eq_refl)). f_equal. apply IH.
  intros y Hy. apply Hall. now right.
Qed.

Lemma filter_app_new id ts x :
  Todo.id x = id -> filter (id_is_not id) (ts ++ [x]) = filter (id_is_not id) ts.
Proof.
  intros <-. rewrite filter_app. cbn. unfold id_is_not at 2.
  rewrite String.eqb_refl. cbn. apply app_nil_r.
Qed.

Lemma filter_twice id ts :
  filter (id_is_not id) (filter (id_is_not id) ts) = filter (id_is_not id) ts.
Proof.
  induction ts as [|x ts IH]; [reflexivity|]. cbn.
  destruct (id_is_not id x) eqn:E; [|exact IH]. cbn. rewrite E. f_equal. exact IH.
Qed.

Lemma typed_delete fs ts req :
  holds fs TODOS_FILE (JArr (map Todo.to_json ts)) ->
  let rest := filter (id_is_not (params_id req)) ts in
  Part000.delete_todo req fs =
    if (length rest =? length ts)%nat
    then (Normal (mkResponse 404 (Some (message "Todo not found"))), fs)
    else (Normal (mkResponse 204 None),
          set_file fs TODOS_FILE (JSON_stringify (JArr (map Todo.to_json rest)))).
Proof.
  intros Hh rest.
  rewrite (delete_holds _ _ _ _ Hh (filter_typed _ _)). now rewrite !length_map.
Qed.

(** X14.  POST then DELETE of the identifier just created answers 204 and
    leaves the list without every todo of that identifier; when the
    identifier was new to the list, that is the list before the POST. *)
Theorem post_then_delete :
  forall fs ts rnd req t req',
    stored fs TODOS_FILE (map Todo.to_json ts) ->
    get_prop (Some (body req)) "text" = Normal (Some (JStr t)) ->
    t <> "" ->
    params_id req' = rnd ->
    let rest := filter (fun x => negb (Todo.id x =? rnd)) ts in
    exists fs1,
      Part000.post_todos rnd req fs =
        (Normal (mkResponse 201 (Some (Todo.to_json (Todo.mk rnd t false)))), fs1) /\
      Part000.delete_todo req' fs1 =
        (Normal (mkResponse 204 None),
         set_file fs1 TODOS_FILE (JSON_stringify (JArr (map Todo.to_json rest)))) /\
      (authorized req -> authorized req' ->
       Index.post_todos rnd req fs =
         (Normal (mkResponse 201 (Some (Todo.to_json (Todo.mk rnd t false)))),
          fs1) /\
       Index.delete_todo req' fs1 =
         (Normal (mkResponse 204 None),
          set_file fs1 TODOS_FILE
            (JSON_stringify (JArr (map Todo.to_json rest))))) /\
      (~ In rnd (map Todo.id ts) -> rest = ts).
Proof.
  intros fs ts rnd req t req' Hs Ht Hne Hid rest.
  destruct (post_body_creates fs _ rnd req (JStr t) Hs Ht (text_of_string_truthy _ Hne))
    as (fs0 & Epost & _).
  eexists. split; [exact Epost|].
  assert (Hh : holds (set_file fs0 TODOS_FILE
                 (JSON_stringify (JArr (map Todo.to_json ts ++
                    [JObj [("id", JStr rnd); ("text", JStr t);
                           ("completed", JBool false)]]))))
                 TODOS_FILE (JArr (map Todo.to_json (ts ++ [Todo.mk rnd t false])))).
  { rewrite map_app. apply holds_write. }
  match goal with |- ?A /\ _ => assert (Edel : A) end.
  { rewrite (typed_delete _ _ req' Hh). rewrite Hid.
    rewrite (filter_app_new rnd ts (Todo.mk rnd t false) eq_refl).
    fold (id_is_not rnd) in rest. fold rest.
    destruct (Nat.eqb_spec (length rest) (length (ts ++ [Todo.mk rnd t false])))
      as [E|E]; [|reflexivity].
    exfalso. rewrite length_app in E. cbn in E.
    pose proof (filter_length_le (id_is_not rnd) ts). fold rest in H. lia. }
  split; [exact Edel|]. split.
  - intros Ha Ha'.
    rewrite (index_post_is_part000 _ _ Ha), (index_delete_is_part000 _ Ha').
    split; [exact Epost|exact Edel].
  - intros Hfresh. now apply filter_fresh.
Qed.

(** X15.  A DELETE cannot be repeated.  After a DELETE that answered 204,
    every DELETE of the same identifier answers 404 and writes nothing. *)
Theorem second_delete_is_404 :
  forall fs ts req,
    holds fs TODOS_FILE (JArr (map Todo.to_json ts)) ->
    In (params_id req) (map Todo.id ts) ->
    exists fs1,
      Part000.delete_todo req fs = (Normal (mkResponse 204 None), fs1) /\
      (authorized req ->
       Index.delete_todo req fs = (Normal (mkResponse 204 None), fs1)) /\
      forall req',
        params_id req' = params_id req ->
        Part000.delete_todo req' fs1 =
          (Normal (mkResponse 404 (Some (message "Todo not found"))), fs1) /\
        (authorized req' ->
         Index.delete_todo req' fs1 =
           (Normal (mkResponse 404 (Some (message "Todo not found"))), fs1)).
Proof.
  intros fs ts req Hh Hin.
  pose proof (typed_delete _ _ req Hh) as E. cbv zeta in E.
  destruct (Nat.eqb_spec (length (filter (id_is_not (params_id req)) ts)) (length ts))
    as [El|El].
  { exfalso.
    exact (proj2 (id_absent_iff _ _) (proj1 (filter_length_same _ _) El) Hin). }
  eexists. split; [exact E|]. split.
  - intros Ha. rewrite (index_delete_is_part000 _ Ha). exact E.
  - intros req' Hid.
    assert (E' : Part000.delete_todo req'
                   (set_file fs TODOS_FILE
                      (JSON_stringify
                         (JArr (map Todo.to_json
                            (filter (id_is_not (params_id req)) ts))))) =
                 (Normal (mkResponse 404 (Some (message "Todo not found"))),
                  set_file fs TODOS_FILE
                      (JSON_stringify
                         (JArr (map Todo.to_json
                            (filter (id_is_not (params_id req)) ts)))))).
    { rewrite (typed_delete _ _ req' (holds_write fs TODOS_FILE _)).
      rewrite Hid, filter_twice, Nat.eqb_refl. reflexivity. }
    split; [exact E'|].
    intros Ha. rewrite (index_delete_is_part000 _ Ha). exact E'.
Qed.


(** X13.  GET returns the todos in the order they were posted. *)
Theorem todos_come_back_in_posting_order :
  forall fs l rnd1 req1 text1 rnd2 req2 text2 req,
    stored fs TODOS_FILE l ->
    get_prop (Some (body req1)) "text" = Normal (Some text1) ->
    truthy (Some text1) = true ->
    get_prop (Some (body req2)) "text" = Normal (Some text2) ->
    truthy (Some text2) = true ->
    exists fs1 fs2 r1 r2,
      Part000.post_todos rnd1 req1 fs = (Normal r1, fs1) /\
      Part000.post_todos rnd2 req2 fs1 = (Normal r2, fs2) /\
      Part000.get_todos req fs2 =
        (Normal (mkResponse 200
           (Some (JArr (l ++ [created rnd1 text1; created rnd2 text2])))), fs2) /\
      (authorized req1 -> authorized req2 -> authorized req ->
       Index.post_todos rnd1 req1 fs = (Normal r1, fs1) /\
       Index.post_todos rnd2 req2 fs1 = (Normal r2, fs2) /\
       Index.get_todos req fs2 =
         (Normal (mkResponse 200
            (Some (JArr (l ++ [created rnd1 text1; created rnd2 text2])))), fs2)).
Proof.
  intros fs l rnd1 req1 text1 rnd2 req2 text2 req Hs H1 T1 H2 T2.
  destruct (post_body_creates fs l rnd1 req1 text1 Hs H1 T1) as (fs0 & E1 & _).
  cbv zeta in E1.
  pose proof (stored_write fs0 TODOS_FILE (l ++ [created rnd1 text1])) as Hs1.
  destruct (post_body_creates _ _ rnd2 req2 text2 Hs1 H2 T2) as (fs0' & E2 & _).
  cbv zeta in E2. rewrite <- app_assoc in E2. cbn [app] in E2.
  eexists _, _, _, _. split; [exact E1|]. split; [exact E2|].
  match goal with |- ?A /\ _ => assert (Eg : A) end.
  { apply get_holds, holds_write. }
  split; [exact Eg|]. intros A1 A2 A.
  rewrite (index_post_is_part000 _ _ A1), (index_post_is_part000 _ _ A2),
    (index_get_is_part000 _ A).
  auto.
Qed.

End More.

(** ** These properties on concrete requests *)

Lemma second_read_changes_nothing_witness :
  Index.readTodos (P := Reference.platform) (mkFiles (Some "[]") None) =
    (Normal (JArr []), mkFiles (Some "[]") None).
Proof.
  apply (proj1 (@second_read_changes_nothing Reference.platform reference_laws
                  broken (JArr []) (mkFiles (Some "[]") None))).
  vm_compute. reflexivity.
Defined.

Lemma written_value_is_read_back_witness :
  (Index.writeTodos (P := Reference.platform) (JObj [("n", JNum 1)]) ;;
   Index.readTodos (P := Reference.platform)) fresh =
  (Normal (JObj [("n", JNum 1)]),
   set_file fresh TODOS_FILE (Reference.stringify (JObj [("n", JNum 1)]))).
Proof.
  apply (proj1 (@written_value_is_read_back Reference.platform reference_laws
                  (JObj [("n", JNum 1)]) fresh)).
Defined.

Lemma todo_routes_open_to_verified_tokens_only_witness :
  authorized (P := Reference.platform) (bearer (JObj []) "").
Proof.
  apply (@todo_routes_open_to_verified_tokens_only Reference.platform
           Index.GET_todos "" (bearer (JObj []) "") busy
           (Normal (mkResponse 200 (Some (JArr (map Todo.to_json some_todos)))))
           busy).
  - reflexivity.
  - vm_compute. reflexivity.
  - intros b H. discriminate H.
Defined.

Lemma routes_write_their_own_file_only_witness :
  users_json
    (snd (Index.serve (P := Reference.platform) Index.POST_todos "q1w2e3r"
            (bearer (JObj [("text", JStr "tea")]) "") busy)) =
  users_json busy.
Proof.
  apply (@routes_write_their_own_file_only Reference.platform
           Index.POST_todos "q1w2e3r" (bearer (JObj [("text", JStr "tea")]) "") busy
           (fst (Index.serve (P := Reference.platform) Index.POST_todos "q1w2e3r"
                   (bearer (JObj [("text", JStr "tea")]) "") busy))).
  apply surjective_pairing.
Defined.

Lemma failed_requests_write_nothing_witness :
  TypeError = TypeError /\ objects = objects /\
  (body (bearer (JObj [("text", JStr "tea")]) "") = JNull \/
   misshapen (P := Reference.platform) objects TODOS_FILE).
Proof.
  apply (proj1 (@failed_requests_write_nothing Reference.platform
                  "q1w2e3r" (bearer (JObj [("text", JStr "tea")]) "") objects
                  TypeError objects) Index.POST_todos).
  vm_compute. reflexivity.
Defined.

Lemma refusals_write_nothing_witness :
  In 409 (statuses Index.POST_auth_signup) /\
  (409 = 400 \/ 409 = 409 \/ (409 = 401 /\ USERS_FILE = TODOS_FILE) -> busy = busy).
Proof.
  apply (@refusals_write_nothing Reference.platform Index.POST_auth_signup
           "m5n6p7q" (anonymous (credentials "ann" "hunter2") "") busy
           (mkResponse 409 (Some (message "username already exists"))) busy).
  vm_compute. reflexivity.
Defined.



Lemma busy_kept : kept (P := Reference.platform) busy.
Proof.
  split.
  - exists (map Todo.to_json some_todos). split; [apply busy_stores_todos|reflexivity].
  - exists (map User.to_json some_users). split; [apply busy_stores_users|reflexivity].
Qed.

Lemma served_without_exception_witness :
  kept (P := Reference.platform)
    (snd (Index.serve (P := Reference.platform) Index.DELETE_todos_id ""
            (bearer (JObj []) "a1b2c3d") busy)) /\
  exists resp,
    fst (Index.serve (P := Reference.platform) Index.DELETE_todos_id ""
           (bearer (JObj []) "a1b2c3d") busy) = Normal resp.
Proof.
  apply (@served_without_exception Reference.platform reference_laws
           Index.DELETE_todos_id "" (bearer (JObj []) "a1b2c3d") busy).
  - apply busy_kept.
  - discriminate.
  - apply surjective_pairing.
Defined.

Lemma server_never_throws_witness :
  Forall (fun o => exists resp, o = Normal resp)
         (fst (replay (P := Reference.platform) morning (mkFiles None None))).
Proof.
  apply (@server_never_throws Reference.platform reference_laws morning).
  repeat constructor; discriminate.
Defined.

Lemma bob_is_new : ~ In "bob" (map User.username some_users).
Proof. cbn. intros [H|[]]. discriminate H. Qed.

Lemma signup_then_login_witness :
  exists fs1 resp,
    Index.signup (P := Reference.platform) "m5n6p7q"
      (anonymous (credentials "bob" "hunter2") "") busy = (Normal resp, fs1) /\
    status resp = 201 /\
    Index.login (P := Reference.platform)
      (anonymous (credentials "bob" "hunter2") "") fs1 =
      (Normal (mkResponse 200 (Some (signed_in
         (Reference.sign [("sub", Some (JStr "m5n6p7q")); ("username", Some (JStr "bob"))]
                         "dev-secret") "bob"))), fs1) /\
    Index.login (P := Reference.platform)
      (anonymous (credentials "bob" "guess") "") fs1 =
      (Normal (mkResponse 401 (Some (message "invalid credentials"))), fs1).
Proof.
  destruct (@signup_then_login Reference.platform reference_laws busy some_users
              "m5n6p7q" (anonymous (credentials "bob" "hunter2") "")
              "bob" "hunter2" busy_stores_users eq_refl eq_refl)
    as (fs1 & resp & E & Hst & Hok & Hbad);
    [discriminate|discriminate|exact bob_is_new|].
  exists fs1, resp. split; [exact E|]. split; [exact Hst|]. split.
  - apply Hok; reflexivity.
  - apply (Hbad _ "guess"); [reflexivity|reflexivity|discriminate|discriminate].
Defined.

Lemma second_signup_is_refused_witness :
  exists fs1 resp,
    Index.signup (P := Reference.platform) "m5n6p7q"
      (anonymous (credentials "bob" "hunter2") "") busy = (Normal resp, fs1) /\
    status resp = 201 /\
    Index.signup (P := Reference.platform) "r8s9t0u"
      (anonymous (credentials "bob" "other") "") fs1 =
      (Normal (mkResponse 409 (Some (message "username already exists"))), fs1).
Proof.
  destruct (@second_signup_is_refused Reference.platform reference_laws busy
              some_users "m5n6p7q" (anonymous (credentials "bob" "hunter2") "")
              "bob" "hunter2" busy_stores_users eq_refl eq_refl)
    as (fs1 & resp & E & Hst & Hagain);
    [discriminate|discriminate|exact bob_is_new|].
  exists fs1, resp. split; [exact E|]. split; [exact Hst|].
  apply (Hagain _ _ "other"); [reflexivity|reflexivity|discriminate].
Defined.

Lemma issued_token_opens_todos_witness :
  let token :=
    Reference.sign [("sub", Some (JStr "m5n6p7q")); ("username", Some (JStr "bob"))]
                   "dev-secret" in
  exists fs1,
    Index.signup (P := Reference.platform) "m5n6p7q"
      (anonymous (credentials "bob" "hunter2") "") busy =
      (Normal (mkResponse 201 (Some (signed_in token "bob"))), fs1) /\
    forall req' todos,
      authorization req' = Some ("Bearer " ++ token) ->
      stored (P := Reference.platform) fs1 TODOS_FILE todos ->
      exists fs2,
        Index.get_todos (P := Reference.platform) req' fs1 =
          (Normal (mkResponse 200 (Some (JArr todos))), fs2).
Proof.
  apply (@issued_token_opens_todos Reference.platform reference_laws busy
           some_users "m5n6p7q" (anonymous (credentials "bob" "hunter2") "")
           "bob" "hunter2"
           (JObj [("sub", JStr "m5n6p7q"); ("username", JStr "bob")])
           busy_stores_users eq_refl eq_refl).
  - discriminate.
  - discriminate.
  - exact bob_is_new.
  - discriminate.
  - vm_compute. reflexivity.
Defined.

Lemma post_then_delete_witness :
  exists fs1,
    Part000.post_todos (P := Reference.platform) "q1w2e3r"
      (anonymous (JObj [("text", JStr "tea")]) "") busy =
      (Normal (mkResponse 201
         (Some (Todo.to_json (Todo.mk "q1w2e3r" "tea" false)))), fs1) /\
    Part000.delete_todo (P := Reference.platform)
      (anonymous (JObj []) "q1w2e3r") fs1 =
      (Normal (mkResponse 204 None),
       set_file fs1 TODOS_FILE
         (Reference.stringify (JArr (map Todo.to_json some_todos)))).
Proof.
  destruct (@post_then_delete Reference.platform reference_laws busy some_todos
              "q1w2e3r" (anonymous (JObj [("text", JStr "tea")]) "") "tea"
              (anonymous (JObj []) "q1w2e3r") busy_stores_todos eq_refl)
    as (fs1 & Epost & Edel & _ & Hrest); [discriminate|reflexivity|].
  exists fs1. split; [exact Epost|].
  rewrite Hrest in Edel; [exact Edel|].
  cbn. intros [H|[H|[H|[]]]]; discriminate H.
Defined.

Lemma second_delete_is_404_witness :
  exists fs1,
    Part000.delete_todo (P := Reference.platform)
      (anonymous (JObj []) "a1b2c3d") busy = (Normal (mkResponse 204 None), fs1) /\
    Part000.delete_todo (P := Reference.platform)
      (anonymous (JObj []) "a1b2c3d") fs1 =
      (Normal (mkResponse 404 (Some (message "Todo not found"))), fs1).
Proof.
  destruct (@second_delete_is_404 Reference.platform reference_laws busy some_todos
              (anonymous (JObj []) "a1b2c3d") busy_holds_todos)
    as (fs1 & E & _ & Hagain); [cbn; left; reflexivity|].
  exists fs1. split; [exact E|].
  apply (Hagain (anonymous (JObj []) "a1b2c3d")). reflexivity.
Defined.


Lemma todos_come_back_in_posting_order_witness :
  exists fs1 fs2 r1 r2,
    Part000.post_todos (P := Reference.platform) "q1w2e3r"
      (anonymous (JObj [("text", JStr "tea")]) "") fresh = (Normal r1, fs1) /\
    Part000.post_todos (P := Reference.platform) "v4w5x6y"
      (anonymous (JObj [("text", JNum 7)]) "") fs1 = (Normal r2, fs2) /\
    Part000.get_todos (P := Reference.platform) (anonymous (JObj []) "") fs2 =
      (Normal (mkResponse 200
         (Some (JArr [created "q1w2e3r" (JStr "tea"); created "v4w5x6y" (JNum 7)]))),
       fs2).
Proof.
  destruct (@todos_come_back_in_posting_order Reference.platform reference_laws
              fresh [] "q1w2e3r" (anonymous (JObj [("text", JStr "tea")]) "")
              (JStr "tea") "v4w5x6y" (anonymous (JObj [("text", JNum 7)]) "")
              (JNum 7) (anonymous (JObj []) ""))
    as (fs1 & fs2 & r1 & r2 & E1 & E2 & Eg & _);
    [apply stored_absent; reflexivity|reflexivity|reflexivity|reflexivity
    |reflexivity|].
  exists fs1, fs2, r1, r2. auto.
Defined.

Lemma only_201_and_204_change_data_witness :
  mkFiles (Some "[]") None = broken \/
  (mkFiles (Some "[]") None = set_file broken TODOS_FILE "[]" /\
   forall v, ~ holds (P := Reference.platform) broken TODOS_FILE v).
Proof.
  apply (@only_201_and_204_change_data Reference.platform Index.DELETE_todos_id ""
           (bearer (JObj []) "a1b2c3d") broken
           (mkResponse 404 (Some (message "Todo not found")))).
  - vm_compute. reflexivity.
  - discriminate.
  - discriminate.
Defined.

(** The answers of the morning, one by one. *)
Lemma morning_answers :
  map (fun o => match o with Normal resp => Some (status resp) | Throw _ => None end)
      (fst (replay (P := Reference.platform) morning (mkFiles None None))) =
  [Some 201; Some 409; Some 200; Some 201; Some 401; Some 204; Some 404].
Proof. vm_compute. reflexivity. Qed.
